(** * India crime dashboard: normalisation and aggregation pipeline

    A shallow embedding of [app.py]: the schema normaliser [load_data]
    (lines 42-112), the region catalogue [get_all_states_df] (lines 35-38)
    and the aggregation script that follows (lines 129-170 and 223-228).

    Modelling conventions.
    - A pandas [DataFrame] is an ordered list of labelled columns.  A column
      ([series]) is either of dtype [object] (text cells, [None] is NaN) or
      numeric ([int64], [float64], nullable [Int64]; [None] is NaN / <NA>).
    - Numbers are exact rationals [Q]: the finite values of a float column,
      without rounding.  Where two results are compared as numbers the
      statement uses [==]; where a table must be literally unchanged it
      uses [=].
    - Exceptions are values of [exn]; fallible steps return [result].
    - The text-to-number grammar of [pd.to_numeric] is pandas code, not code
      of this repository: it is a parameter [parse] of the development.
      [parse s = None] means that [s] is not a number, [Some None] that it
      reads as NaN, [Some (Some q)] that it reads as [q].
    - [pd.to_numeric(..., errors="ignore")] has the pandas 1.x/2.x meaning:
      the column is returned unchanged when one cell fails to parse.
    - Text is a string of bytes; [str.strip] and [str.lower] act on the
      ASCII range.
    - The aggregation works on the rows of a normalised frame ([records]);
      [groupby] yields its groups in ascending key order, and
      [sort_values] with the default [kind] is any function that returns
      its rows reordered in the requested order ([sort_contract]). *)

From Stdlib Require Import List String Ascii Bool Arith ZArith QArith Lia Lqa.
From Stdlib Require Import Qround Permutation Sorted.
Import ListNotations.

Local Open Scope string_scope.
Local Open Scope list_scope.

(** ** Text helpers: [str.strip], [str.lower], the [in] test on strings *)

Module Text.

(** Python's [str.isspace] on the ASCII range. *)
Definition is_space (c : ascii) : bool :=
  let n := nat_of_ascii c in
  ((9 <=? n)%nat && (n <=? 13)%nat) || ((28 <=? n)%nat && (n <=? 32)%nat).

Fixpoint lstrip (s : string) : string :=
  match s with
  | String c s' => if is_space c then lstrip s' else s
  | EmptyString => EmptyString
  end.

Fixpoint rstrip (s : string) : string :=
  match s with
  | String c s' =>
      match rstrip s' with
      | EmptyString => if is_space c then EmptyString else String c EmptyString
      | r => String c r
      end
  | EmptyString => EmptyString
  end.

Definition strip (s : string) : string := rstrip (lstrip s).

Definition lower_char (c : ascii) : ascii :=
  let n := nat_of_ascii c in
  if ((65 <=? n)%nat && (n <=? 90)%nat)%bool then ascii_of_nat (n + 32)%nat else c.

Fixpoint lower (s : string) : string :=
  match s with
  | String c s' => String (lower_char c) (lower s')
  | EmptyString => EmptyString
  end.

(** [contains sub s] is Python's [sub in s]. *)
Fixpoint contains (sub s : string) : bool :=
  String.prefix sub s ||
  match s with
  | String _ s' => contains sub s'
  | EmptyString => false
  end.

End Text.

(** ** Exceptions and the error monad *)

Inductive exn : Type :=
| ValueError (msg : string)
| KeyError (key : string)
| TypeError (msg : string)
| AttributeError (msg : string).

Inductive result (A : Type) : Type :=
| Ok (a : A)
| Raise (e : exn).

Arguments Ok {A} a.
Arguments Raise {A} e.

Definition bind {A B : Type} (r : result A) (k : A -> result B) : result B :=
  match r with
  | Ok a => k a
  | Raise e => Raise e
  end.

Notation "x <- r ;; k" := (bind r (fun x => k))
  (at level 61, r at next level, right associativity).

Definition succeeds {A : Type} (r : result A) : bool :=
  match r with Ok _ => true | Raise _ => false end.

(** ** Columns and frames *)

Inductive series : Type :=
| SObj (cells : list (option string))
| SNum (cells : list (option Q)).

Definition DataFrame : Type := list (string * series).

Definition slen (s : series) : nat :=
  match s with
  | SObj l => List.length l
  | SNum l => List.length l
  end.

Definition is_numeric (s : series) : bool :=
  match s with SNum _ => true | SObj _ => false end.

Module Frame.

Definition columns (df : DataFrame) : list string := map fst df.

(** [c in df.columns] *)
Definition has (df : DataFrame) (c : string) : bool :=
  existsb (String.eqb c) (columns df).

(** [df.get(c)]: the column labelled [c], if any. *)
Fixpoint get (df : DataFrame) (c : string) : option series :=
  match df with
  | [] => None
  | (c', s) :: df' => if String.eqb c c' then Some s else get df' c
  end.

(** [df[c] = s]: overwrite the column in place, or append a new one. *)
Fixpoint set (df : DataFrame) (c : string) (s : series) : DataFrame :=
  match df with
  | [] => [(c, s)]
  | (c', s') :: df' =>
      if String.eqb c c' then (c', s) :: df' else (c', s') :: set df' c s
  end.

(** [df.rename(columns={old: new})] *)
Definition rename (df : DataFrame) (old new : string) : DataFrame :=
  map (fun cs => (if String.eqb (fst cs) old then new else fst cs, snd cs)) df.

(** [len(df.index)] *)
Definition nrows (df : DataFrame) : nat :=
  match df with
  | [] => 0
  | (_, s) :: _ => slen s
  end.

(** Apply a per-column update to every column, as the loops
    [for c in df.columns: df[c] = ...] do. *)
Definition map_cols (f : string -> series -> series) (df : DataFrame) : DataFrame :=
  map (fun cs => (fst cs, f (fst cs) (snd cs))) df.

End Frame.

Definition Qltb (a b : Q) : bool := negb (Qle_bool b a).

Definition fill0 (o : option Q) : Q :=
  match o with Some q => q | None => 0 end.

Fixpoint map2 {A B C : Type} (f : A -> B -> C) (l1 : list A) (l2 : list B) : list C :=
  match l1, l2 with
  | a :: l1', b :: l2' => f a b :: map2 f l1' l2'
  | _, _ => []
  end.

Definition num_col (l : list Q) : series := SNum (map Some l).

(** ** The schema normaliser, [load_data] (lines 42-112) *)

Definition AREA_ALIASES : list string :=
  ["STATE/UT"; "State/UT"; "State"; "STATE"; "District"; "DISTRICT"].

Definition CATEGORICAL : list string :=
  ["Area_Name"; "Group_Name"; "Sub_Group_Name"].

Definition STATE_MAP : list (string * string) :=
  [ ("NCT of Delhi", "Delhi");
    ("Orissa", "Odisha");
    ("Uttaranchal", "Uttarakhand");
    ("Jammu & Kashmir", "Jammu and Kashmir");
    ("Andaman & Nicobar Islands", "Andaman and Nicobar");
    ("Dadra & Nagar Haveli", "Dadra and Nagar Haveli");
    ("Daman & Diu", "Daman and Diu") ].

Fixpoint assoc (k : string) (m : list (string * string)) : option string :=
  match m with
  | [] => None
  | (k', v) :: m' => if String.eqb k k' then Some v else assoc k m'
  end.

(** [np.where(crimes > 0, recovered / crimes, 0)], one cell. *)
Definition rate (crimes recovered : Q) : Q :=
  if Qltb 0 crimes then recovered / crimes else 0.

Definition no_numeric_msg (file_path : string) : string :=
  String.append "No numeric columns found in dataset: " file_path.

Definition is_preferred (c : string) : bool :=
  Text.contains "case" (Text.lower c) ||
  Text.contains "crime" (Text.lower c) ||
  Text.contains "total" (Text.lower c).

Definition numeric_cols (df : DataFrame) : list string :=
  map fst (filter (fun cs => is_numeric (snd cs)) df).

(** Lines 84-85: [preferred[0] if preferred else numeric_cols[0]]. *)
Definition base_col (numeric : list string) : option string :=
  match filter is_preferred numeric with
  | p :: _ => Some p
  | [] => hd_error numeric
  end.

Definition set_scalar_num (df : DataFrame) (c : string) (q : Q) : DataFrame :=
  Frame.set df c (SNum (repeat (Some q) (Frame.nrows df))).

Definition set_scalar_str (df : DataFrame) (c : string) (v : string) : DataFrame :=
  Frame.set df c (SObj (repeat (Some v) (Frame.nrows df))).

(** Lines 46-48: [astype(str)] prints NaN as the text nan. *)
Definition astype_str (o : option string) : string :=
  match o with Some s => s | None => "nan" end.

Definition strip_series (s : series) : series :=
  match s with
  | SObj l => SObj (map (fun o => Some (Text.strip (astype_str o))) l)
  | SNum _ => s
  end.

Definition strip_all (df : DataFrame) : DataFrame :=
  Frame.map_cols (fun _ => strip_series) df.

(** [astype("Int64")]: refuses a float that is not a whole number. *)
Definition is_integral (o : option Q) : bool :=
  match o with
  | Some q => Pos.eqb (Qden (Qred q)) 1
  | None => true
  end.

Definition astype_Int64 (s : series) : result series :=
  match s with
  | SNum l =>
      if forallb is_integral l then Ok s
      else Raise (TypeError "cannot safely cast non-equivalent float64 to int64")
  | SObj _ => Raise (TypeError "object cannot be converted to an IntegerDtype")
  end.

(** Lines 55-60. *)
Fixpoint first_alias (df : DataFrame) (alts : list string) : option string :=
  match alts with
  | [] => None
  | alt :: alts' => if Frame.has df alt then Some alt else first_alias df alts'
  end.

Definition resolve_area (df : DataFrame) : DataFrame :=
  if Frame.has df "Area_Name" then df
  else match first_alias df AREA_ALIASES with
       | Some alt => Frame.rename df alt "Area_Name"
       | None => df
       end.

Definition default_groups (df : DataFrame) : DataFrame :=
  let df1 :=
    if Frame.has df "Group_Name" then df
    else set_scalar_str df "Group_Name" "Overall" in
  if Frame.has df1 "Sub_Group_Name" then df1
  else set_scalar_str df1 "Sub_Group_Name" "Overall".

Definition replace_state (o : option string) : option string :=
  match o with
  | Some s => Some (match assoc s STATE_MAP with Some v => v | None => s end)
  | None => None
  end.

Definition replace_series (s : series) : series :=
  match s with
  | SObj l => SObj (map replace_state l)
  | SNum _ => s
  end.

(** Line 110: [df["Area_Name"]] is a lookup and raises [KeyError] when the
    column is missing. *)
Definition canonicalize_area (df : DataFrame) : result DataFrame :=
  match Frame.get df "Area_Name" with
  | Some s => Ok (Frame.set df "Area_Name" (replace_series s))
  | None => Raise (KeyError "Area_Name")
  end.

Section Normaliser.

(** The number grammar of [pd.to_numeric]. *)
Variable parse : string -> option (option Q).

(** [errors="coerce"]: an unreadable cell becomes NaN. *)
Definition coerce_cell (o : option string) : option Q :=
  match o with
  | Some s => match parse s with Some v => v | None => None end
  | None => None
  end.

Definition parses (o : option string) : bool :=
  match o with
  | Some s => match parse s with Some _ => true | None => false end
  | None => true
  end.

Definition to_numeric_coerce (s : series) : series :=
  match s with
  | SObj l => SNum (map coerce_cell l)
  | SNum _ => s
  end.

(** [errors="ignore"]: all cells or nothing. *)
Definition to_numeric_ignore (s : series) : series :=
  match s with
  | SObj l => if forallb parses l then SNum (map coerce_cell l) else s
  | SNum _ => s
  end.

(** [pd.to_numeric(s, errors="coerce").fillna(0)] *)
Definition to_numeric_fillna (s : series) : list Q :=
  match s with
  | SObj l => map (fun o => fill0 (coerce_cell o)) l
  | SNum l => map fill0 l
  end.

(** Lines 51-52. *)
Definition year_step (df : DataFrame) : result DataFrame :=
  match Frame.get df "Year" with
  | Some s =>
      y <- astype_Int64 (to_numeric_coerce s) ;;
      Ok (Frame.set df "Year" y)
  | None => Ok df
  end.

(** Lines 63-65. *)
Definition convert_numeric (df : DataFrame) : DataFrame :=
  Frame.map_cols
    (fun c s => if existsb (String.eqb c) CATEGORICAL then s else to_numeric_ignore s)
    df.

(** [pd.to_numeric(df.get(c, 0), errors="coerce").fillna(0)]: when the
    column is missing, [df.get] yields the integer 0, [pd.to_numeric]
    returns a scalar unchanged, and an integer has no [fillna]. *)
Definition get_or_zero (df : DataFrame) (c : string) : result (list Q) :=
  match Frame.get df c with
  | Some s => Ok (to_numeric_fillna s)
  | None => Raise (AttributeError "'int' object has no attribute 'fillna'")
  end.

(** Lines 69-76. *)
Definition property_kind (df : DataFrame) : result DataFrame :=
  crimes <- get_or_zero df "Cases_Property_Stolen" ;;
  let df1 := Frame.set df "Total_Crimes" (num_col crimes) in
  recovered <- get_or_zero df1 "Cases_Property_Recovered" ;;
  let df2 := Frame.set df1 "Total_Recovered" (num_col recovered) in
  stolen <- get_or_zero df2 "Value_of_Property_Stolen" ;;
  let df3 := Frame.set df2 "Total_Value_Stolen" (num_col stolen) in
  back <- get_or_zero df3 "Value_of_Property_Recovered" ;;
  let df4 := Frame.set df3 "Total_Value_Recovered" (num_col back) in
  let df5 := Frame.set df4 "Loss_Value" (num_col (map2 Qminus stolen back)) in
  Ok (Frame.set df5 "Recovery_Rate" (num_col (map2 rate crimes recovered))).

(** Lines 80-92. *)
Definition generic_kind (file_path : string) (df : DataFrame) : result DataFrame :=
  match base_col (numeric_cols df) with
  | None => Raise (ValueError (no_numeric_msg file_path))
  | Some base =>
      match Frame.get df base with
      | None => Raise (KeyError base)
      | Some s =>
          let df1 := Frame.set df "Total_Crimes" (num_col (to_numeric_fillna s)) in
          let df2 := set_scalar_num df1 "Total_Recovered" 0 in
          let df3 := set_scalar_num df2 "Loss_Value" 0 in
          Ok (set_scalar_num df3 "Recovery_Rate" 0)
      end
  end.

Definition kind_step (file_path : string) (df : DataFrame) : result DataFrame :=
  if Frame.has df "Cases_Property_Stolen" then property_kind df
  else generic_kind file_path df.

(** Lines 46-65: everything before the dataset-kind branch. *)
Definition prepare (df : DataFrame) : result DataFrame :=
  df2 <- year_step (strip_all df) ;;
  Ok (convert_numeric (resolve_area df2)).

(** [load_data], applied to the frame that [pd.read_csv(file_path)] returned. *)
Definition load_data (file_path : string) (df : DataFrame) : result DataFrame :=
  df4 <- prepare df ;;
  df5 <- kind_step file_path df4 ;;
  canonicalize_area (default_groups df5).

End Normaliser.

(** A small instance of the number grammar, used to run the normaliser on
    concrete tables: an optional minus sign followed by decimal digits, and
    the text nan. *)
Module Decimal.

Definition digit (c : ascii) : option Z :=
  let n := nat_of_ascii c in
  if ((48 <=? n)%nat && (n <=? 57)%nat)%bool then Some (Z.of_nat (n - 48)) else None.

Fixpoint digits (acc : Z) (s : string) : option Z :=
  match s with
  | EmptyString => Some acc
  | String c s' =>
      match digit c with
      | Some d => digits (10 * acc + d)%Z s'
      | None => None
      end
  end.

Definition natural (s : string) : option Z :=
  match s with
  | EmptyString => None
  | _ => digits 0%Z s
  end.

Definition parse (s : string) : option (option Q) :=
  if String.eqb s "nan" then Some None
  else match s with
       | String "-" s' => option_map (fun z => Some (inject_Z (- z))) (natural s')
       | _ => option_map (fun z => Some (inject_Z z)) (natural s)
       end.

End Decimal.

(** ** Normalised rows *)

Record row : Type := mkRow {
  Area_Name : string;
  Year : option Z;
  Group_Name : string;
  Sub_Group_Name : string;
  Total_Crimes : Q;
  Total_Recovered : Q;
  Loss_Value : Q;
  Recovery_Rate : Q
}.

Definition Qsum (l : list Q) : Q := fold_right Qplus 0 l.

(** ** Sorting text keys: Python's [sorted(set(...))] *)

Fixpoint insert_sorted (x : string) (l : list string) : list string :=
  match l with
  | [] => [x]
  | y :: l' => if String.leb x y then x :: l else y :: insert_sorted x l'
  end.

Definition sorted (l : list string) : list string :=
  fold_right insert_sorted [] l.

Definition sorted_set (l : list string) : list string :=
  sorted (nodup string_dec l).

(** ** Region catalogue, [get_all_states_df] (lines 35-38)

    [states] is the list of [NAME_1] properties of the features. *)
Definition get_all_states_df (states : list string) : list string :=
  sorted_set states.

(** ** Filters (lines 129-142) *)

Definition Year_between (lo hi : Z) (r : row) : bool :=
  match Year r with
  | Some y => (lo <=? y)%Z && (y <=? hi)%Z
  | None => false
  end.

Definition has_years (df : list row) : bool :=
  existsb (fun r => match Year r with Some _ => true | None => false end) df.

(** [year_range] is the slider's value; the slider exists only when some
    row has a year. *)
Definition year_filter (year_range : Z * Z) (df : list row) : list row :=
  if has_years df then filter (Year_between (fst year_range) (snd year_range)) df
  else df.

Definition group_filter (selected_group : string) (df : list row) : list row :=
  if String.eqb selected_group "All" then df
  else filter (fun r => String.eqb (Group_Name r) selected_group) df.

(** ** State summary (lines 145-165) *)

Record state_row : Type := mkState {
  s_Area_Name : string;
  s_Total_Crimes : Q;
  s_Total_Recovered : Q;
  s_Loss_Value : Q;
  s_Recovery_Rate : Q
}.

(** A row of the left join before [fillna]: [None] is NaN. *)
Record joined_row : Type := mkJoined {
  j_Area_Name : string;
  j_Total_Crimes : option Q;
  j_Total_Recovered : option Q;
  j_Loss_Value : option Q;
  j_Recovery_Rate : option Q
}.

Definition rows_of (key : row -> string) (k : string) (df : list row) : list row :=
  filter (fun r => String.eqb (key r) k) df.

(** [df.groupby(key, as_index=False)]: one group per distinct key, keys in
    ascending order. *)
Definition groupby (key : row -> string) (df : list row) : list (string * list row) :=
  map (fun k => (k, rows_of key k df)) (sorted_set (map key df)).

Definition sum_of (col : row -> Q) (g : list row) : Q := Qsum (map col g).

(** Lines 145-158. *)
Definition state_agg (df : list row) : list state_row :=
  map (fun kg =>
         let crimes := sum_of Total_Crimes (snd kg) in
         let recovered := sum_of Total_Recovered (snd kg) in
         mkState (fst kg) crimes recovered (sum_of Loss_Value (snd kg))
                 (rate crimes recovered))
      (groupby Area_Name df).

(** [left.merge(right, on="Area_Name", how="left")]: every left key, once per
    matching right row, or once with NaN when nothing matches. *)
Definition merge_left (left : list string) (right : list state_row) : list joined_row :=
  flat_map
    (fun a =>
       match filter (fun r => String.eqb (s_Area_Name r) a) right with
       | [] => [mkJoined a None None None None]
       | ms =>
           map (fun r => mkJoined a (Some (s_Total_Crimes r)) (Some (s_Total_Recovered r))
                                  (Some (s_Loss_Value r)) (Some (s_Recovery_Rate r)))
               ms
       end)
    left.

(** Lines 163-165. *)
Definition fillna_row (j : joined_row) : state_row :=
  mkState (j_Area_Name j) (fill0 (j_Total_Crimes j)) (fill0 (j_Total_Recovered j))
          (fill0 (j_Loss_Value j)) (fill0 (j_Recovery_Rate j)).

(** Lines 145-165: the state summary shown on the map. *)
Definition state_summary (states : list string) (df : list row) : list state_row :=
  map fillna_row (merge_left (get_all_states_df states) (state_agg df)).

(** ** Top-line figures (lines 168-170) *)

(** Python's [int(x)] on a float: truncation towards zero. *)
Definition int (q : Q) : Z := Z.quot (Qnum q) (Zpos (Qden q)).

Definition total_crimes (summary : list state_row) : Z :=
  int (Qsum (map s_Total_Crimes summary)).

Definition total_recovered (summary : list state_row) : Z :=
  int (Qsum (map s_Total_Recovered summary)).

Definition recovery_rate (summary : list state_row) : Q :=
  if Z.eqb (total_crimes summary) 0 then 0
  else inject_Z (total_recovered summary) / inject_Z (total_crimes summary) * 100.

(** ** Sub-group breakdown (lines 214-228) *)

Definition drill (selected_state : string) (df : list row) : list row :=
  if String.eqb selected_state "All India" then df
  else filter (fun r => String.eqb (Area_Name r) selected_state) df.

Definition sub_groups (df : list row) : list (string * Q) :=
  map (fun kg => (fst kg, sum_of Total_Crimes (snd kg))) (groupby Sub_Group_Name df).

(** What [sort_values("Total_Crimes", ascending=False)] promises with the
    default [kind="quicksort"]: the rows, reordered, in descending order of
    the key.  The order among equal keys is not specified by pandas (only
    [kind="stable"] and [kind="mergesort"] are stable). *)
Definition desc (a b : string * Q) : Prop := snd b <= snd a.

Definition sort_contract (sort_values : list (string * Q) -> list (string * Q)) : Prop :=
  forall l, Permutation (sort_values l) l /\ StronglySorted desc (sort_values l).

Definition sub_grp (sort_values : list (string * Q) -> list (string * Q))
    (selected_state : string) (df : list row) : list (string * Q) :=
  firstn 15 (sort_values (sub_groups (drill selected_state df))).

(** A stable descending sort: insertion that places a row before the rows
    it ties with. *)
Fixpoint insert_desc (x : string * Q) (l : list (string * Q)) : list (string * Q) :=
  match l with
  | [] => [x]
  | y :: l' => if Qle_bool (snd y) (snd x) then x :: l else y :: insert_desc x l'
  end.

Definition stable_sort_desc (l : list (string * Q)) : list (string * Q) :=
  fold_right insert_desc [] l.

(** ** From a normalised frame to its rows *)

Fixpoint sequence {A : Type} (l : list (option A)) : option (list A) :=
  match l with
  | [] => Some []
  | Some a :: l' => option_map (cons a) (sequence l')
  | None :: _ => None
  end.

Definition text_column (df : DataFrame) (c : string) : option (list string) :=
  match Frame.get df c with
  | Some (SObj l) => sequence l
  | _ => None
  end.

Definition number_column (df : DataFrame) (c : string) : option (list Q) :=
  match Frame.get df c with
  | Some (SNum l) => sequence l
  | _ => None
  end.

Definition year_column (df : DataFrame) : list (option Z) :=
  match Frame.get df "Year" with
  | Some (SNum l) => map (option_map Qfloor) l
  | _ => repeat None (Frame.nrows df)
  end.

Fixpoint zip_rows (a : list string) (y : list (option Z)) (g s : list string)
    (c r l t : list Q) : list row :=
  match a, y, g, s with
  | a1 :: a', y1 :: y', g1 :: g', s1 :: s' =>
      match c, r, l, t with
      | c1 :: c', r1 :: r', l1 :: l', t1 :: t' =>
          mkRow a1 y1 g1 s1 c1 r1 l1 t1 :: zip_rows a' y' g' s' c' r' l' t'
      | _, _, _, _ => []
      end
  | _, _, _, _ => []
  end.

(** The rows of a frame produced by [load_data], for a frame whose three
    categorical columns are text. *)
Definition records (df : DataFrame) : option (list row) :=
  match text_column df "Area_Name", text_column df "Group_Name",
        text_column df "Sub_Group_Name" with
  | Some a, Some g, Some s =>
      match number_column df "Total_Crimes", number_column df "Total_Recovered",
            number_column df "Loss_Value", number_column df "Recovery_Rate" with
      | Some c, Some r, Some l, Some t =>
          Some (zip_rows a (year_column df) g s c r l t)
      | _, _, _, _ => None
      end
  | _, _, _ => None
  end.

(** ** Vocabulary of the statements *)

(** Text that does not start with white space. *)
Definition tight_left (s : string) : Prop :=
  match s with
  | String c _ => Text.is_space c = false
  | EmptyString => True
  end.

(** The columns the dataset-kind branch writes. *)
Definition DERIVED : list string :=
  ["Total_Crimes"; "Total_Recovered"; "Total_Value_Stolen"; "Total_Value_Recovered";
   "Loss_Value"; "Recovery_Rate"].

(** The columns lines 95-98 default. *)
Definition GROUPS : list string := ["Group_Name"; "Sub_Group_Name"].

(** The column a scalar 0 is broadcast to. *)
Definition zeros (n : nat) : series := SNum (repeat (Some 0) n).

(** No column is named [Area_Name] or by one of its aliases. *)
Definition region_column_missing (df : DataFrame) : bool :=
  negb (Frame.has df "Area_Name") &&
  forallb (fun alt => negb (Frame.has df alt)) AREA_ALIASES.

(** [x in l] *)
Definition inb (x : string) (l : list string) : bool := existsb (String.eqb x) l.

(** Line 84: the list [preferred] of a frame. *)
Definition preferred_numeric (df : DataFrame) : list string :=
  filter is_preferred (numeric_cols df).

Section Settled.

Variable parse : string -> option (option Q).

(** A column on which the clean-up steps of lines 46-65 change nothing. *)
Definition tidy (c : string) (s : series) : Prop :=
  strip_series s = s /\
  (existsb (String.eqb c) CATEGORICAL = false -> to_numeric_ignore parse s = s).

(** The column [Year], when there is one, is a whole-number column. *)
Definition year_settled (df : DataFrame) : Prop :=
  forall s, Frame.get df "Year" = Some s ->
            astype_Int64 (to_numeric_coerce parse s) = Ok s.

End Settled.

(** *** Base-column selection, in the words of the specification *)

(** The words a base column is preferred for. *)
Definition KEYWORDS : list string := ["case"; "crime"; "total"].

(** [c] contains the word [w], whatever the case of its letters. *)
Definition mentions (c w : string) : Prop :=
  exists pre mid post,
    c = String.append pre (String.append mid post) /\ Text.lower mid = w.

(** [c] mentions one of the keywords. *)
Definition keyword_name (c : string) : Prop :=
  exists w, In w KEYWORDS /\ mentions c w.

(** [base] is the first name of [numeric] that mentions a keyword, or the
    first name of [numeric] when none does. *)
Definition first_keyword_or_first (numeric : list string) (base : string) : Prop :=
  (exists before after,
      numeric = before ++ base :: after /\
      keyword_name base /\ Forall (fun c => ~ keyword_name c) before)
  \/ (Forall (fun c => ~ keyword_name c) numeric /\ hd_error numeric = Some base).

(** *** The state summary, region by region *)

(** The summary row of one region: the sums over its rows and the rate
    recomputed from the sums. *)
Definition region_row (df : list row) (a : string) : state_row :=
  let g := rows_of Area_Name a df in
  mkState a (sum_of Total_Crimes g) (sum_of Total_Recovered g) (sum_of Loss_Value g)
          (rate (sum_of Total_Crimes g) (sum_of Total_Recovered g)).

(** The rows [load_data] hands to the aggregation, when it succeeds. *)
Definition normalized (parse : string -> option (option Q)) (file_path : string)
    (raw : DataFrame) : option (list row) :=
  match load_data parse file_path raw with
  | Ok out => records out
  | Raise _ => None
  end.

(** *** Ties in the sub-group breakdown *)

(** Another sort that meets the same contract and leaves ties in the
    opposite order. *)
Definition reversing_sort_desc (l : list (string * Q)) : list (string * Q) :=
  stable_sort_desc (rev l).

(** The sub-groups in the order in which the rows first mention them. *)
Fixpoint first_seen (l : list string) : list string :=
  match l with
  | [] => []
  | x :: l' => x :: filter (fun y => negb (String.eqb y x)) (first_seen l')
  end.

(** The breakdown as the claim describes it: groups in encounter order,
    sorted by a stable descending sort, cut at 15. *)
Definition sub_grp_in_encounter_order (selected_state : string) (df : list row) :
    list (string * Q) :=
  let d := drill selected_state df in
  firstn 15
    (stable_sort_desc
       (map (fun k => (k, sum_of Total_Crimes (rows_of Sub_Group_Name k d)))
            (first_seen (map Sub_Group_Name d)))).

(** *** Example tables *)

(** A table with columns Foo (text) and Bar (numbers). *)
Definition foo_bar : DataFrame :=
  [("Foo", SObj [Some "x"]); ("Bar", SNum [Some 3])].

(** A table with columns Foo and Bar, both text. *)
Definition foo_bar_text : DataFrame :=
  [("Foo", SObj [Some "x"]); ("Bar", SObj [Some "y"])].

(** The generic table of the specification's example. *)
Definition murders : DataFrame :=
  [("Area_Name", SObj [Some "Goa"]); ("Murders_Reported", SNum [Some 12])].

(** A dataset keyed by district: [District] is one of the region aliases. *)
Definition by_district : DataFrame :=
  [("District", SObj [Some "Pune"]); ("Cases_Reported", SNum [Some 7])].

(** A property-crime dataset in which more was recovered than was stolen. *)
Definition recovered_more : DataFrame :=
  [("Area_Name", SObj [Some "Goa"]);
   ("Cases_Property_Stolen", SNum [Some 10]);
   ("Cases_Property_Recovered", SNum [Some 20]);
   ("Value_of_Property_Stolen", SNum [Some 100]);
   ("Value_of_Property_Recovered", SNum [Some 250])].

(** A generic dataset that already has a column [Total_Recovered]. *)
Definition with_total_recovered : DataFrame :=
  [("Area_Name", SObj [Some "Goa"]); ("Total_Recovered", SNum [Some 5])].

(** Two rows of one region, crimes 10 and 0, recovered 5 and 0. *)
Definition two_rows : list row :=
  [mkRow "Goa" None "Overall" "Overall" 10 5 0 (rate 10 5);
   mkRow "Goa" None "Overall" "Overall" 0 0 0 (rate 0 0)].

(** Two sub-groups with equal totals; Burglary is met first. *)
Definition tied_rows : list row :=
  [mkRow "Goa" None "Overall" "Burglary" 5 0 0 0;
   mkRow "Goa" None "Overall" "Arson" 5 0 0 0].

(** ** The rest of the script *)

(** *** Year slider (lines 130-133) *)

Definition year_values (df : list row) : list Z :=
  flat_map (fun r => match Year r with Some y => [y] | None => [] end) df.

Fixpoint insert_year (x : Z) (l : list Z) : list Z :=
  match l with
  | [] => [x]
  | y :: l' => if Z.leb x y then x :: l else y :: insert_year x l'
  end.

Definition sorted_years (l : list Z) : list Z := fold_right insert_year [] l.

(** [sorted(df["Year"].dropna().unique().tolist())] *)
Definition years (df : list row) : list Z :=
  sorted_years (nodup Z.eq_dec (year_values df)).

(** [(min_year, max_year)], the range of the slider and its default value;
    there is no slider when [years] is empty. *)
Definition year_bounds (df : list row) : option (Z * Z) :=
  match years df with
  | [] => None
  | y :: ys => Some (fold_right Z.min y ys, fold_right Z.max y ys)
  end.

(** *** Crime-group selector (lines 139-140) *)

Definition group_options (df : list row) : list string :=
  sorted_set (map Group_Name df).

(** Lines 129-142: both filters, in the script's order. *)
Definition filtered (year_range : Z * Z) (selected_group : string) (df : list row) :
    list row :=
  group_filter selected_group (year_filter year_range df).

(** *** Year-wise trend (lines 242-251) *)

Definition in_year (y : Z) (r : row) : bool :=
  match Year r with
  | Some y' => Z.eqb y' y
  | None => false
  end.

(** [drill.groupby("Year", as_index=False).agg(Total_Crimes=("Total_Crimes", "sum"))]:
    rows without a year belong to no group. *)
Definition year_groups (df : list row) : list (Z * Q) :=
  map (fun y => (y, sum_of Total_Crimes (filter (in_year y) df))) (years df).

(** What [sort_values("Year")] promises: the rows, reordered, in ascending
    order of the year. *)
Definition sort_by_year_contract (sort_values : list (Z * Q) -> list (Z * Q)) : Prop :=
  forall l, Permutation (sort_values l) l /\
            StronglySorted (fun a b => (fst a <= fst b)%Z) (sort_values l).

(** [None] stands for the notice shown instead of the chart. *)
Definition trend (sort_values : list (Z * Q) -> list (Z * Q))
    (selected_state : string) (df : list row) : option (list (Z * Q)) :=
  let d := drill selected_state df in
  if has_years d then Some (sort_values (year_groups d)) else None.

(** An ascending insertion sort on the year, to run [trend]. *)
Fixpoint insert_by_year (x : Z * Q) (l : list (Z * Q)) : list (Z * Q) :=
  match l with
  | [] => [x]
  | y :: l' => if Z.leb (fst x) (fst y) then x :: l else y :: insert_by_year x l'
  end.

Definition sort_by_year (l : list (Z * Q)) : list (Z * Q) :=
  fold_right insert_by_year [] l.

(** *** Comparisons (lines 261 and 275) *)

(** What [sort_values(col, ascending=False)] promises on the state summary. *)
Definition sort_states_contract (key : state_row -> Q)
    (sort_values : list state_row -> list state_row) : Prop :=
  forall l, Permutation (sort_values l) l /\
            StronglySorted (fun a b => key b <= key a) (sort_values l).

(** [state_agg.sort_values("Total_Crimes", ascending=False).head(10)] *)
Definition top_states (sort_values : list state_row -> list state_row)
    (summary : list state_row) : list state_row :=
  firstn 10 (sort_values summary).

(** [state_agg.sort_values("Recovery_Rate", ascending=False).head(15)] *)
Definition top_recovery (sort_values : list state_row -> list state_row)
    (summary : list state_row) : list state_row :=
  firstn 15 (sort_values summary).

(** A descending insertion sort on a column of the state summary. *)
Fixpoint insert_state (key : state_row -> Q) (x : state_row) (l : list state_row) :
    list state_row :=
  match l with
  | [] => [x]
  | y :: l' => if Qle_bool (key y) (key x) then x :: l else y :: insert_state key x l'
  end.

Definition sort_states (key : state_row -> Q) (l : list state_row) : list state_row :=
  fold_right (insert_state key) [] l.

(** *** More vocabulary *)

(** Every column has as many cells as the frame has rows. *)
Definition rectangular (df : DataFrame) : Prop :=
  Forall (fun cs => slen (snd cs) = Frame.nrows df) df.

(** A frame with [n] rows in every column. *)
Definition rows_are (n : nat) (df : DataFrame) : Prop :=
  rectangular df /\ Frame.nrows df = n.

(** The column lines 55-60 take for the region: [Area_Name], or the first
    alias the frame has. *)
Definition region_column (df : DataFrame) : option string :=
  if Frame.has df "Area_Name" then Some "Area_Name"
  else first_alias df AREA_ALIASES.

(** A text cell that is present and has no white space around it. *)
Definition clean_cell (o : option string) : Prop :=
  exists x, o = Some x /\ Text.strip x = x.

(** A numeric cell that is missing or a whole number. *)
Definition whole_or_missing (o : option Q) : Prop :=
  match o with
  | Some q => exists z, q == inject_Z z
  | None => True
  end.

(** A property-crime table without its recovered-cases column. *)
Definition stolen_only : DataFrame :=
  [("Area_Name", SObj [Some "Goa"]); ("Cases_Property_Stolen", SNum [Some 10])].

(** A table keyed by [State], with padded names and a year column. *)
Definition by_state : DataFrame :=
  [("State", SObj [Some " Orissa "; Some "Goa"]);
   ("Year", SObj [Some "2010"; Some "n/a"]);
   ("Cases_Reported", SNum [Some 4; None])].

(** Rows with and without a year. *)
Definition some_years : list row :=
  [mkRow "Goa" (Some 2012%Z) "Theft" "Overall" 2 0 0 0;
   mkRow "Goa" None "Theft" "Overall" 8 0 0 0;
   mkRow "Kerala" (Some 2010%Z) "Fraud" "Overall" 1 0 0 0;
   mkRow "Goa" (Some 2012%Z) "Fraud" "Overall" 4 0 0 0].

(** Years 2010, 2012, 2015 and the range (2011, 2014). *)
Definition three_years : list row :=
  [mkRow "Goa" (Some 2010%Z) "Overall" "Overall" 1 0 0 0;
   mkRow "Goa" (Some 2012%Z) "Overall" "Overall" 2 0 0 0;
   mkRow "Goa" (Some 2015%Z) "Overall" "Overall" 4 0 0 0].

(** * Properties *)

(** ** The filters on examples *)

Example year_filter_keeps_2012 :
  year_filter (2011, 2014)%Z three_years =
  [mkRow "Goa" (Some 2012%Z) "Overall" "Overall" 2 0 0 0].
Proof. reflexivity. Qed.

Example group_filter_all : group_filter "All" three_years = three_years.
Proof. reflexivity. Qed.

Example orissa_becomes_odisha :
  replace_series (SObj [Some "Orissa"; Some "Goa"]) = SObj [Some "Odisha"; Some "Goa"].
Proof. reflexivity. Qed.

Example get_all_states_df_sorted_unique :
  get_all_states_df ["Kerala"; "Goa"; "Kerala"; "Assam"] = ["Assam"; "Goa"; "Kerala"].
Proof. reflexivity. Qed.

(** ** Text *)

Module TextFacts.
Import Text.

Lemma lstrip_tight (s : string) : tight_left (lstrip s).
Proof.
  induction s as [|c s IH]; simpl; [exact I|].
  destruct (is_space c) eqn:E; [exact IH | exact E].
Qed.

Lemma lstrip_fixed (s : string) : tight_left s -> lstrip s = s.
Proof.
  destruct s as [|c s]; simpl; [reflexivity|].
  intros ->. reflexivity.
Qed.

Lemma rstrip_tight (s : string) : tight_left s -> tight_left (rstrip s).
Proof.
  destruct s as [|c s]; simpl; [exact (fun H => H)|].
  intros E. destruct (rstrip s); simpl; [rewrite E|]; exact E.
Qed.

Lemma rstrip_idem (s : string) : rstrip (rstrip s) = rstrip s.
Proof.
  induction s as [|c s IH]; simpl; [reflexivity|].
  destruct (rstrip s) as [|d r] eqn:E.
  - destruct (is_space c) eqn:Ec; simpl; [reflexivity|].
    rewrite Ec. reflexivity.
  - change (rstrip (String c (String d r))) with
      (match rstrip (String d r) with
       | EmptyString => if is_space c then EmptyString else String c EmptyString
       | x => String c x
       end).
    rewrite IH. reflexivity.
Qed.

Lemma strip_idem (s : string) : strip (strip s) = strip s.
Proof.
  unfold strip.
  rewrite (lstrip_fixed (rstrip (lstrip s))).
  - apply rstrip_idem.
  - apply rstrip_tight, lstrip_tight.
Qed.

End TextFacts.

(** ** Frames: lookup and assignment *)

Module FrameFacts.
Import Frame.

Lemma get_set (df : DataFrame) (c c' : string) (s : series) :
  get (set df c s) c' = if String.eqb c' c then Some s else get df c'.
Proof.
  induction df as [|[d x] df IH]; simpl.
  - reflexivity.
  - destruct (String.eqb_spec c d) as [->|Hcd]; simpl.
    + destruct (String.eqb c' d); reflexivity.
    + rewrite IH. destruct (String.eqb_spec c' d) as [->|Hd]; [|reflexivity].
      destruct (String.eqb_spec d c) as [E|_]; [congruence | reflexivity].
Qed.

Lemma has_get (df : DataFrame) (c : string) :
  has df c = match get df c with Some _ => true | None => false end.
Proof.
  unfold has, columns.
  induction df as [|[d x] df IH]; simpl; [reflexivity|].
  destruct (String.eqb c d); simpl; [reflexivity | exact IH].
Qed.

Lemma has_false_get (df : DataFrame) (c : string) :
  has df c = false <-> get df c = None.
Proof.
  rewrite has_get. destruct (get df c); split; congruence.
Qed.

Lemma set_same (df : DataFrame) (c : string) (s : series) :
  get df c = Some s -> set df c s = df.
Proof.
  induction df as [|[d x] df IH]; simpl; [discriminate|].
  destruct (String.eqb c d).
  - intros [= ->]. reflexivity.
  - intros H. rewrite (IH H). reflexivity.
Qed.

Lemma set_absent (df : DataFrame) (c : string) (s : series) :
  get df c = None -> set df c s = df ++ [(c, s)].
Proof.
  induction df as [|[d x] df IH]; simpl; [reflexivity|].
  destruct (String.eqb c d); [discriminate|].
  intros H. rewrite (IH H). reflexivity.
Qed.

Lemma get_In (df : DataFrame) (c : string) (s : series) :
  get df c = Some s -> In (c, s) df.
Proof.
  induction df as [|[d x] df IH]; simpl; [discriminate|].
  destruct (String.eqb_spec c d) as [->|_].
  - intros [= ->]. left. reflexivity.
  - intros H. right. exact (IH H).
Qed.

Lemma Forall_set (P : string -> series -> Prop) (df : DataFrame) (c : string) (s : series) :
  Forall (fun cs => P (fst cs) (snd cs)) df -> P c s ->
  Forall (fun cs => P (fst cs) (snd cs)) (set df c s).
Proof.
  intros H Hs. induction H as [|[d x] df Hd H IH]; simpl.
  - constructor; [exact Hs | constructor].
  - destruct (String.eqb_spec c d) as [->|_]; constructor; assumption.
Qed.

Lemma map_cols_id (f : string -> series -> series) (df : DataFrame) :
  Forall (fun cs => f (fst cs) (snd cs) = snd cs) df -> map_cols f df = df.
Proof.
  unfold map_cols. induction 1 as [|[d x] df Hd H IH]; simpl; [reflexivity|].
  simpl in Hd. rewrite Hd, IH. reflexivity.
Qed.

Lemma get_map_cols (f : string -> series -> series) (df : DataFrame) (c : string) :
  get (map_cols f df) c = option_map (f c) (get df c).
Proof.
  unfold map_cols. induction df as [|[d x] df IH]; simpl; [reflexivity|].
  destruct (String.eqb_spec c d) as [->|_]; [reflexivity | exact IH].
Qed.

Lemma Forall_map_cols (P : string -> series -> Prop) (f : string -> series -> series)
    (df : DataFrame) :
  (forall c s, In (c, s) df -> P c (f c s)) ->
  Forall (fun cs => P (fst cs) (snd cs)) (map_cols f df).
Proof.
  unfold map_cols. intros H. apply Forall_forall. intros [c s] Hin.
  apply in_map_iff in Hin. destruct Hin as [[d x] [[= <- <-] Hin]].
  simpl. apply H, Hin.
Qed.

Lemma get_rename_other (df : DataFrame) (old new c : string) :
  c <> old -> c <> new -> get (rename df old new) c = get df c.
Proof.
  intros Ho Hn. unfold rename.
  induction df as [|[d x] df IH]; simpl; [reflexivity|].
  rewrite IH. destruct (String.eqb_spec d old) as [->|Hd].
  - destruct (String.eqb_spec c new) as [E|_]; [contradiction|].
    destruct (String.eqb_spec c old) as [E|_]; [contradiction | reflexivity].
  - reflexivity.
Qed.

Lemma nrows_set (df : DataFrame) (c : string) (s s0 : series) :
  get df c = Some s0 -> slen s = slen s0 -> nrows (set df c s) = nrows df.
Proof.
  destruct df as [|[d x] df]; simpl; [discriminate|].
  destruct (String.eqb c d); simpl.
  - intros [= ->] H. exact H.
  - reflexivity.
Qed.

Lemma nrows_set_rows (df : DataFrame) (c : string) (s : series) :
  slen s = nrows df -> nrows (set df c s) = nrows df.
Proof.
  destruct df as [|[d x] df]; simpl; [exact (fun H => H)|].
  destruct (String.eqb c d); simpl; [exact (fun H => H) | reflexivity].
Qed.

End FrameFacts.

(** ** The normaliser, step by step *)

Ltac split_orb H :=
  repeat (let H1 := fresh H in
          apply orb_false_iff in H; destruct H as [H1 H]).

Section NormaliserFacts.

Variable parse : string -> option (option Q).

Import Frame FrameFacts.

Lemma kind_step_cases (file_path : string) (df out : DataFrame) :
  kind_step parse file_path df = Ok out ->
  (has df "Cases_Property_Stolen" = true /\
   exists crimes recovered stolen back,
     get_or_zero parse df "Cases_Property_Stolen" = Ok crimes /\
     get_or_zero parse df "Cases_Property_Recovered" = Ok recovered /\
     get_or_zero parse df "Value_of_Property_Stolen" = Ok stolen /\
     get_or_zero parse df "Value_of_Property_Recovered" = Ok back /\
     out = set (set (set (set (set (set df
             "Total_Crimes" (num_col crimes))
             "Total_Recovered" (num_col recovered))
             "Total_Value_Stolen" (num_col stolen))
             "Total_Value_Recovered" (num_col back))
             "Loss_Value" (num_col (map2 Qminus stolen back)))
             "Recovery_Rate" (num_col (map2 rate crimes recovered)))
  \/
  (has df "Cases_Property_Stolen" = false /\
   exists base s,
     base_col (numeric_cols df) = Some base /\
     get df base = Some s /\
     out = set_scalar_num (set_scalar_num (set_scalar_num
             (set df "Total_Crimes" (num_col (to_numeric_fillna parse s)))
             "Total_Recovered" 0) "Loss_Value" 0) "Recovery_Rate" 0).
Proof.
  unfold kind_step. destruct (has df "Cases_Property_Stolen") eqn:K.
  - intros H. left. split; [reflexivity|].
    unfold property_kind in H.
    destruct (get_or_zero parse df "Cases_Property_Stolen") as [crimes|] eqn:E1;
      simpl in H; [|discriminate].
    unfold get_or_zero in H at 1. rewrite get_set in H. simpl in H.
    destruct (get df "Cases_Property_Recovered") as [s2|] eqn:E2;
      simpl in H; [|discriminate].
    unfold get_or_zero in H at 1. rewrite !get_set in H. simpl in H.
    destruct (get df "Value_of_Property_Stolen") as [s3|] eqn:E3;
      simpl in H; [|discriminate].
    unfold get_or_zero in H at 1. rewrite !get_set in H. simpl in H.
    destruct (get df "Value_of_Property_Recovered") as [s4|] eqn:E4;
      simpl in H; [|discriminate].
    injection H as <-.
    exists crimes, (to_numeric_fillna parse s2), (to_numeric_fillna parse s3),
      (to_numeric_fillna parse s4).
    unfold get_or_zero. rewrite E2, E3, E4. repeat split; reflexivity.
  - intros H. right. split; [reflexivity|].
    unfold generic_kind in H.
    destruct (base_col (numeric_cols df)) as [base|]; [|discriminate].
    destruct (get df base) as [s|] eqn:E; [|discriminate].
    injection H as <-. exists base, s. repeat split; assumption.
Qed.

Lemma get_set_scalar_num (df : DataFrame) (c c' : string) (q : Q) :
  get (set_scalar_num df c q) c' =
  if String.eqb c' c then Some (SNum (repeat (Some q) (nrows df))) else get df c'.
Proof. apply get_set. Qed.

(** The dataset-kind branch only writes the derived columns. *)
Lemma kind_step_get_other (file_path : string) (df out : DataFrame) (c : string) :
  kind_step parse file_path df = Ok out ->
  existsb (String.eqb c) DERIVED = false ->
  get out c = get df c.
Proof.
  intros H Hc. simpl in Hc. split_orb Hc.
  apply kind_step_cases in H.
  destruct H as [[_ (cr & re & st & ba & _ & _ & _ & _ & ->)] | [_ (b & s & _ & _ & ->)]].
  - rewrite !get_set. rewrite Hc0, Hc1, Hc2, Hc3, Hc4, Hc5. reflexivity.
  - rewrite !get_set_scalar_num, get_set. rewrite Hc0, Hc1, Hc4, Hc5. reflexivity.
Qed.

Lemma get_default_groups_other (df : DataFrame) (c : string) :
  existsb (String.eqb c) GROUPS = false ->
  get (default_groups df) c = get df c.
Proof.
  intros Hc. simpl in Hc. split_orb Hc.
  unfold default_groups, set_scalar_str.
  destruct (has df "Group_Name");
    match goal with |- context [if has ?d "Sub_Group_Name" then _ else _] =>
      destruct (has d "Sub_Group_Name") end;
    rewrite ?get_set, ?Hc0, ?Hc1; reflexivity.
Qed.

Lemma has_default_groups (df : DataFrame) :
  has (default_groups df) "Group_Name" = true /\
  has (default_groups df) "Sub_Group_Name" = true.
Proof.
  unfold default_groups, set_scalar_str.
  destruct (has df "Group_Name") eqn:G;
    match goal with |- context [if has ?d "Sub_Group_Name" then _ else _] =>
      destruct (has d "Sub_Group_Name") eqn:S end;
    rewrite ?has_get in *; rewrite ?get_set in *; simpl in *; split;
    try reflexivity; try assumption.
Qed.

Lemma get_strip_all (df : DataFrame) (c : string) :
  get (strip_all df) c = option_map strip_series (get df c).
Proof. apply get_map_cols. Qed.

Lemma get_convert_numeric (df : DataFrame) (c : string) :
  get (convert_numeric parse df) c =
  option_map (fun s => if existsb (String.eqb c) CATEGORICAL then s
                       else to_numeric_ignore parse s) (get df c).
Proof. apply get_map_cols. Qed.

Lemma year_step_get_other (df out : DataFrame) (c : string) :
  year_step parse df = Ok out -> String.eqb c "Year" = false ->
  get out c = get df c.
Proof.
  unfold year_step. destruct (get df "Year") as [s|]; [|intros [= <-]; reflexivity].
  destruct (astype_Int64 (to_numeric_coerce parse s)) as [y|]; simpl; [|discriminate].
  intros [= <-] Hc. rewrite get_set, Hc. reflexivity.
Qed.

Lemma first_alias_none (df : DataFrame) (alts : list string) :
  forallb (fun alt => negb (has df alt)) alts = true -> first_alias df alts = None.
Proof.
  induction alts as [|a alts IH]; simpl; [reflexivity|].
  intros H. apply andb_true_iff in H. destruct H as [Ha H].
  apply negb_true_iff in Ha. rewrite Ha. exact (IH H).
Qed.

Lemma load_data_cases (file_path : string) (df out : DataFrame) :
  load_data parse file_path df = Ok out ->
  exists df4 df5 a,
    prepare parse df = Ok df4 /\
    kind_step parse file_path df4 = Ok df5 /\
    get (default_groups df5) "Area_Name" = Some a /\
    out = set (default_groups df5) "Area_Name" (replace_series a).
Proof.
  unfold load_data. intros H.
  destruct (prepare parse df) as [df4|] eqn:P; simpl in H; [|discriminate].
  destruct (kind_step parse file_path df4) as [df5|] eqn:K; simpl in H; [|discriminate].
  unfold canonicalize_area in H.
  destruct (get (default_groups df5) "Area_Name") as [a|] eqn:E; [|discriminate].
  injection H as <-. exists df4, df5, a. auto.
Qed.

(** Without a region column, the frame reaches the dataset-kind branch
    unchanged in that respect. *)
Lemma prepare_no_region (df df4 : DataFrame) :
  region_column_missing df = true -> prepare parse df = Ok df4 ->
  get df4 "Area_Name" = None.
Proof.
  unfold region_column_missing, prepare. intros H.
  apply andb_true_iff in H. destruct H as [Ha Hall].
  apply negb_true_iff in Ha.
  destruct (year_step parse (strip_all df)) as [df2|] eqn:Y; simpl; [|discriminate].
  intros [= <-].
  assert (Hget : forall c, String.eqb c "Year" = false -> has df2 c = has df c).
  { intros c Hc. rewrite !has_get, (year_step_get_other _ _ c Y Hc), get_strip_all.
    destruct (get df c); reflexivity. }
  assert (R : resolve_area df2 = df2).
  { unfold resolve_area. rewrite (Hget "Area_Name" eq_refl), Ha.
    rewrite first_alias_none; [reflexivity|].
    simpl in Hall |- *. rewrite !Hget by reflexivity. exact Hall. }
  assert (G : get df2 "Area_Name" = None).
  { apply has_false_get. rewrite Hget by reflexivity. exact Ha. }
  rewrite R, get_convert_numeric, G. reflexivity.
Qed.

End NormaliserFacts.

(** ** Substrings and case folding *)

Module ContainsFacts.
Import Text.

Lemma prefix_spec (a s : string) :
  String.prefix a s = true <-> exists post, s = String.append a post.
Proof.
  revert s. induction a as [|c a IH]; intros s.
  - split; [intros _; exists s; reflexivity | intros _; destruct s; reflexivity].
  - destruct s as [|d s]; simpl.
    + split; [discriminate | intros [post H]; discriminate].
    + destruct (Ascii.ascii_dec c d) as [->|N].
      * rewrite IH. split; intros [post H]; exists post; congruence.
      * split; [discriminate | intros [post H]; congruence].
Qed.

Lemma contains_unfold (sub s : string) :
  contains sub s =
  String.prefix sub s ||
  match s with String _ s' => contains sub s' | EmptyString => false end.
Proof. destruct s; reflexivity. Qed.

Lemma contains_spec (sub s : string) :
  contains sub s = true <->
  exists pre post, s = String.append pre (String.append sub post).
Proof.
  induction s as [|d s IH]; rewrite contains_unfold.
  - rewrite orb_false_r, prefix_spec. split.
    + intros [post H]. exists EmptyString, post. exact H.
    + intros (pre & post & H). destruct pre; simpl in H; [|discriminate].
      exists post. exact H.
  - rewrite orb_true_iff, prefix_spec, IH. split.
    + intros [[post H] | (pre & post & H)].
      * exists EmptyString, post. exact H.
      * exists (String d pre), post. simpl. rewrite H. reflexivity.
    + intros (pre & post & H). destruct pre as [|e pre]; simpl in H.
      * left. exists post. exact H.
      * right. exists pre, post. congruence.
Qed.

Lemma lower_append (a b : string) :
  lower (String.append a b) = String.append (lower a) (lower b).
Proof.
  induction a as [|c a IH]; simpl; [reflexivity|]. rewrite IH. reflexivity.
Qed.

Lemma lower_split (s a b : string) :
  lower s = String.append a b ->
  exists a0 b0, s = String.append a0 b0 /\ lower a0 = a /\ lower b0 = b.
Proof.
  revert s. induction a as [|c a IH]; intros s H; simpl in H.
  - exists EmptyString, s. auto.
  - destruct s as [|d s]; simpl in H; [discriminate|].
    injection H as Hc H. destruct (IH s H) as (a0 & b0 & -> & <- & <-).
    exists (String d a0), b0. simpl. rewrite Hc. auto.
Qed.

End ContainsFacts.

(** ** Base-column selection meets its description *)

Lemma mentions_contains (c w : string) :
  Text.contains w (Text.lower c) = true <-> mentions c w.
Proof.
  rewrite ContainsFacts.contains_spec. unfold mentions. split.
  - intros (pre & post & H).
    apply ContainsFacts.lower_split in H. destruct H as (a0 & r & -> & Ha & H).
    apply ContainsFacts.lower_split in H. destruct H as (m & b0 & -> & Hm & Hb).
    exists a0, m, b0. auto.
  - intros (pre & mid & post & -> & <-).
    exists (Text.lower pre), (Text.lower post).
    rewrite !ContainsFacts.lower_append. reflexivity.
Qed.

Lemma is_preferred_spec (c : string) : is_preferred c = true <-> keyword_name c.
Proof.
  unfold is_preferred, keyword_name, KEYWORDS.
  rewrite !orb_true_iff, !mentions_contains. simpl. split.
  - intros [[H|H]|H]; eauto 6.
  - intros (w & [<-|[<-|[<-|[]]]] & H); auto.
Qed.

Lemma base_col_spec (numeric : list string) (base : string) :
  base_col numeric = Some base -> first_keyword_or_first numeric base.
Proof.
  unfold base_col, first_keyword_or_first.
  destruct (filter is_preferred numeric) as [|p l] eqn:F.
  - intros H. right. split; [|exact H].
    apply Forall_forall. intros c Hc K. apply is_preferred_spec in K.
    assert (In c (filter is_preferred numeric)) by (apply filter_In; auto).
    rewrite F in *. contradiction.
  - intros [= <-]. left.
    revert p l F. induction numeric as [|c numeric IH]; intros p l F; simpl in F;
      [discriminate|].
    destruct (is_preferred c) eqn:C.
    + injection F as <- _. exists [], numeric. repeat split.
      * apply is_preferred_spec, C.
      * constructor.
    + destruct (IH p l F) as (before & after & -> & K & N).
      exists (c :: before), after. repeat split; [exact K|].
      constructor; [|exact N]. intros K'. apply is_preferred_spec in K'. congruence.
Qed.

Lemma base_col_some (numeric : list string) :
  numeric <> [] -> exists base, base_col numeric = Some base /\ In base numeric.
Proof.
  unfold base_col. intros N.
  destruct (filter is_preferred numeric) as [|p l] eqn:F.
  - destruct numeric as [|c numeric]; [contradiction|]. exists c. simpl. auto.
  - exists p. split; [reflexivity|].
    assert (In p (filter is_preferred numeric)) by (rewrite F; left; reflexivity).
    apply filter_In in H. tauto.
Qed.

Lemma numeric_cols_get (df : DataFrame) (c : string) :
  In c (numeric_cols df) -> exists s, Frame.get df c = Some s.
Proof.
  unfold numeric_cols. intros H. apply in_map_iff in H.
  destruct H as ([d s] & <- & H). apply filter_In in H. destruct H as [H _].
  simpl. destruct (Frame.get df d) as [x|] eqn:G; [eauto|exfalso].
  apply FrameFacts.has_false_get in G. unfold Frame.has, Frame.columns in G.
  assert (E : existsb (String.eqb d) (map fst df) = true).
  { apply existsb_exists. exists d. split; [|apply String.eqb_refl].
    apply in_map_iff. exists (d, s). auto. }
  congruence.
Qed.

(** ** Failure modes of the normaliser *)

(** C1, as amended: without a region column [load_data] never returns a
    table, and nothing is raised where the region column is resolved: an
    error of the earlier steps or of the dataset-kind branch is passed on
    unchanged, and when these succeed the lookup [df["Area_Name"]] of the
    last statement raises [KeyError]. *)
Theorem C1_missing_region_raises_late
    (parse : string -> option (option Q)) (file_path : string) (df : DataFrame) :
  region_column_missing df = true ->
  succeeds (load_data parse file_path df) = false /\
  load_data parse file_path df =
    (df4 <- prepare parse df ;;
     _ <- kind_step parse file_path df4 ;;
     Raise (KeyError "Area_Name")).
Proof.
  intros M.
  assert (E : load_data parse file_path df =
              (df4 <- prepare parse df ;;
               _ <- kind_step parse file_path df4 ;;
               Raise (KeyError "Area_Name"))).
  { unfold load_data.
    destruct (prepare parse df) as [df4|] eqn:P; simpl; [|reflexivity].
    destruct (kind_step parse file_path df4) as [df5|] eqn:K; simpl; [|reflexivity].
    unfold canonicalize_area.
    rewrite get_default_groups_other by reflexivity.
    rewrite (kind_step_get_other parse file_path df4 df5 "Area_Name" K) by reflexivity.
    rewrite (prepare_no_region parse df df4 M P). reflexivity. }
  split; [|exact E].
  rewrite E. destruct (prepare parse df) as [df4|]; simpl; [|reflexivity].
  destruct (kind_step parse file_path df4); reflexivity.
Qed.

Lemma C1_missing_region_raises_late_witness :
  region_column_missing foo_bar = true /\
  succeeds (load_data Decimal.parse "data.csv" foo_bar) = false /\
  load_data Decimal.parse "data.csv" foo_bar = Raise (KeyError "Area_Name").
Proof.
  split; [reflexivity|].
  exact (C1_missing_region_raises_late Decimal.parse "data.csv" foo_bar eq_refl).
Defined.

(** C1, as stated, fails on the table with columns Foo and Bar: the whole
    dataset-kind branch runs and computes [Total_Crimes] before anything is
    raised, and what is raised is the [KeyError] of the final lookup, not a
    schema error. *)
Lemma C1_counterexample :
  region_column_missing foo_bar = true /\
  (exists df4 df5,
      prepare Decimal.parse foo_bar = Ok df4 /\
      kind_step Decimal.parse "data.csv" df4 = Ok df5 /\
      Frame.get df5 "Total_Crimes" = Some (num_col [3])) /\
  load_data Decimal.parse "data.csv" foo_bar = Raise (KeyError "Area_Name") /\
  ~ (exists msg, load_data Decimal.parse "data.csv" foo_bar = Raise (ValueError msg)).
Proof.
  split; [reflexivity|]. split.
  - eexists. eexists. split; [reflexivity|]. split; reflexivity.
  - split; [reflexivity|]. intros [msg H]. discriminate H.
Qed.

(** C6: a generic-kind table with no numeric column after coercion makes
    [load_data] raise the [ValueError] whose message ends with the file
    path; no table is returned. *)
Theorem C6_no_numeric_column_raises
    (parse : string -> option (option Q)) (file_path : string) (df df4 : DataFrame) :
  prepare parse df = Ok df4 ->
  Frame.has df4 "Cases_Property_Stolen" = false ->
  numeric_cols df4 = [] ->
  load_data parse file_path df =
    Raise (ValueError (String.append "No numeric columns found in dataset: " file_path)) /\
  succeeds (load_data parse file_path df) = false.
Proof.
  intros P K N.
  assert (E : load_data parse file_path df =
              Raise (ValueError (String.append "No numeric columns found in dataset: " file_path))).
  { unfold load_data. rewrite P. simpl. unfold kind_step. rewrite K.
    unfold generic_kind. rewrite N. reflexivity. }
  split; [exact E | rewrite E; reflexivity].
Qed.

Lemma C6_no_numeric_column_raises_witness :
  load_data Decimal.parse "murder_cleaned.csv" foo_bar_text =
    Raise (ValueError "No numeric columns found in dataset: murder_cleaned.csv") /\
  succeeds (load_data Decimal.parse "murder_cleaned.csv" foo_bar_text) = false.
Proof.
  exact (C6_no_numeric_column_raises Decimal.parse "murder_cleaned.csv" foo_bar_text
           foo_bar_text eq_refl eq_refl eq_refl).
Defined.

(** C7: in a generic-kind table with a numeric column, the base column is
    the first numeric column whose name mentions case, crime or total in
    any letter case, or the first numeric column when no name does; the
    dataset-kind branch succeeds and [Total_Crimes] is that column with its
    gaps filled by 0, also in the table [load_data] returns. *)
Theorem C7_base_column
    (parse : string -> option (option Q)) (file_path : string) (df df4 : DataFrame) :
  prepare parse df = Ok df4 ->
  Frame.has df4 "Cases_Property_Stolen" = false ->
  numeric_cols df4 <> [] ->
  exists base s,
    first_keyword_or_first (numeric_cols df4) base /\
    Frame.get df4 base = Some s /\
    (exists df5,
        kind_step parse file_path df4 = Ok df5 /\
        Frame.get df5 "Total_Crimes" = Some (num_col (to_numeric_fillna parse s))) /\
    (forall out,
        load_data parse file_path df = Ok out ->
        Frame.get out "Total_Crimes" = Some (num_col (to_numeric_fillna parse s))).
Proof.
  intros P K N.
  destruct (base_col_some _ N) as (base & B & Hin).
  destruct (numeric_cols_get _ _ Hin) as [s G].
  exists base, s.
  assert (KS : kind_step parse file_path df4 =
               Ok (set_scalar_num (set_scalar_num (set_scalar_num
                     (Frame.set df4 "Total_Crimes" (num_col (to_numeric_fillna parse s)))
                     "Total_Recovered" 0) "Loss_Value" 0) "Recovery_Rate" 0)).
  { unfold kind_step. rewrite K. unfold generic_kind. rewrite B, G. reflexivity. }
  split; [apply base_col_spec, B|]. split; [exact G|]. split.
  - eexists. split; [exact KS|].
    rewrite !get_set_scalar_num, FrameFacts.get_set. reflexivity.
  - intros out L. apply load_data_cases in L.
    destruct L as (d4 & d5 & a & P' & K' & _ & ->).
    rewrite P in P'. injection P' as <-. rewrite KS in K'. injection K' as <-.
    rewrite FrameFacts.get_set. simpl.
    rewrite get_default_groups_other by reflexivity.
    rewrite !get_set_scalar_num, FrameFacts.get_set. reflexivity.
Qed.

Lemma C7_base_column_witness :
  first_keyword_or_first (numeric_cols murders) "Murders_Reported" /\
  exists out,
    load_data Decimal.parse "murder_cleaned.csv" murders = Ok out /\
    Frame.get out "Total_Crimes" = Some (num_col [12]).
Proof.
  destruct (C7_base_column Decimal.parse "murder_cleaned.csv" murders murders
              eq_refl eq_refl) as (base & s & F & G & _ & L).
  - discriminate.
  - change (numeric_cols murders) with ["Murders_Reported"] in F.
    assert (base = "Murders_Reported") as ->.
    { destruct F as [(before & after & E & _) | [_ E]].
      - destruct before as [|b before]; simpl in E.
        + congruence.
        + destruct before; discriminate.
      - simpl in E. congruence. }
    injection G as <-. split; [exact F|].
    eexists. split; [reflexivity|]. apply L. reflexivity.
Defined.

(** ** Sorted key lists *)

Lemma insert_sorted_perm (x : string) (l : list string) :
  Permutation (insert_sorted x l) (x :: l).
Proof.
  induction l as [|y l IH]; simpl; [reflexivity|].
  destruct (String.leb x y); [reflexivity|].
  rewrite IH. apply perm_swap.
Qed.

Lemma sorted_perm (l : list string) : Permutation (sorted l) l.
Proof.
  induction l as [|x l IH]; simpl; [reflexivity|].
  rewrite insert_sorted_perm, IH. reflexivity.
Qed.

Lemma insert_sorted_ordered (x : string) (l : list string) :
  Sorted (fun a b => String.leb a b = true) l ->
  Sorted (fun a b => String.leb a b = true) (insert_sorted x l).
Proof.
  induction 1 as [|y l S IH Hd]; simpl; [repeat constructor|].
  destruct (String.leb x y) eqn:L.
  - constructor; [constructor; assumption | constructor; exact L].
  - constructor; [exact IH|].
    assert (Lyx : String.leb y x = true).
    { destruct (String.leb_total x y) as [E|E]; [congruence | exact E]. }
    destruct Hd as [|z l Hz]; simpl.
    + constructor. exact Lyx.
    + destruct (String.leb x z); constructor; assumption.
Qed.

Lemma sorted_ordered (l : list string) :
  Sorted (fun a b => String.leb a b = true) (sorted l).
Proof.
  induction l as [|x l IH]; simpl; [constructor | apply insert_sorted_ordered, IH].
Qed.

Lemma sorted_set_NoDup (l : list string) : NoDup (sorted_set l).
Proof.
  unfold sorted_set.
  apply (Permutation_NoDup (l := nodup string_dec l)).
  - symmetry. apply sorted_perm.
  - apply NoDup_nodup.
Qed.

Lemma sorted_set_In (l : list string) (x : string) : In x (sorted_set l) <-> In x l.
Proof.
  unfold sorted_set. rewrite <- (nodup_In string_dec l x). split.
  - apply Permutation_in, sorted_perm.
  - apply Permutation_in. symmetry. apply sorted_perm.
Qed.

(** ** Sums *)

Lemma Qltb_true (a b : Q) : Qltb a b = true <-> a < b.
Proof.
  unfold Qltb. rewrite negb_true_iff. split.
  - intros H. apply Qnot_le_lt. intros L. apply Qle_bool_iff in L. congruence.
  - intros H. destruct (Qle_bool b a) eqn:E; [|reflexivity].
    apply Qle_bool_iff in E. exfalso. exact (Qlt_not_le _ _ H E).
Qed.

Lemma rate_positive (c r : Q) : 0 < c -> rate c r == r / c.
Proof.
  intros H. unfold rate. apply Qltb_true in H. rewrite H. reflexivity.
Qed.

Lemma rate_otherwise (c r : Q) : ~ 0 < c -> rate c r = 0.
Proof.
  intros H. unfold rate. destruct (Qltb 0 c) eqn:E; [|reflexivity].
  apply Qltb_true in E. contradiction.
Qed.

Lemma Qsum_nonneg (l : list Q) : Forall (fun q => 0 <= q) l -> 0 <= Qsum l.
Proof.
  induction 1 as [|q l Hq H IH]; simpl; [apply Qle_refl|].
  change 0 with (0 + 0). apply Qplus_le_compat; assumption.
Qed.

Lemma inb_In (x : string) (l : list string) : inb x l = true <-> In x l.
Proof.
  unfold inb. rewrite existsb_exists. split.
  - intros (y & H & E). apply String.eqb_eq in E. subst. exact H.
  - intros H. exists x. split; [exact H | apply String.eqb_refl].
Qed.

(** Summing group by group over distinct keys is summing the rows whose
    key is one of them. *)
Lemma sum_by_groups (key : row -> string) (col : row -> Q) (df : list row)
    (keys : list string) :
  NoDup keys ->
  Qsum (map (fun k => sum_of col (rows_of key k df)) keys) ==
  sum_of col (filter (fun r => inb (key r) keys) df).
Proof.
  induction 1 as [|k keys Hk N IH]; simpl.
  - induction df as [|r df IHdf]; simpl; [reflexivity | exact IHdf].
  - rewrite IH. clear IH. unfold sum_of, rows_of.
    induction df as [|r df IHdf]; simpl; [reflexivity|].
    destruct (String.eqb_spec (key r) k) as [E|E]; simpl.
    + assert (X : inb (key r) keys = false).
      { destruct (inb (key r) keys) eqn:I; [|reflexivity].
        apply inb_In in I. rewrite E in I. contradiction. }
      rewrite X. simpl. rewrite <- IHdf. ring.
    + destruct (inb (key r) keys); simpl; rewrite <- IHdf; [ring | reflexivity].
Qed.

(** ** The state summary, region by region *)

Lemma state_agg_rows (df : list row) :
  state_agg df = map (region_row df) (sorted_set (map Area_Name df)).
Proof. unfold state_agg, groupby. rewrite map_map. reflexivity. Qed.

Lemma rows_of_absent (key : row -> string) (k : string) (df : list row) :
  ~ In k (map key df) -> rows_of key k df = [].
Proof.
  unfold rows_of. induction df as [|r df IH]; simpl; [reflexivity|].
  intros H. destruct (String.eqb_spec (key r) k) as [E|_]; [tauto|].
  apply IH. tauto.
Qed.

Lemma filter_region_rows (df : list row) (keys : list string) (a : string) :
  NoDup keys ->
  filter (fun r => String.eqb (s_Area_Name r) a) (map (region_row df) keys) =
  if inb a keys then [region_row df a] else [].
Proof.
  induction 1 as [|k keys Hk N IH]; simpl; [reflexivity|].
  rewrite IH. rewrite (String.eqb_sym a k).
  destruct (String.eqb_spec k a) as [->|E]; simpl; [|reflexivity].
  destruct (inb a keys) eqn:I; [|reflexivity].
  apply inb_In in I. contradiction.
Qed.

Lemma map_flat_map_single {A B C : Type} (f : B -> C) (g : A -> list B) (h : A -> C)
    (l : list A) :
  (forall a, map f (g a) = [h a]) -> map f (flat_map g l) = map h l.
Proof.
  intros H. induction l as [|a l IH]; simpl; [reflexivity|].
  rewrite map_app, IH, H. reflexivity.
Qed.

Lemma state_summary_rows (states : list string) (df : list row) :
  state_summary states df = map (region_row df) (get_all_states_df states).
Proof.
  unfold state_summary, merge_left. rewrite state_agg_rows.
  apply map_flat_map_single. intros a.
  rewrite (filter_region_rows df _ a (sorted_set_NoDup _)).
  destruct (inb a (sorted_set (map Area_Name df))) eqn:I; simpl.
  - reflexivity.
  - assert (A : rows_of Area_Name a df = []).
    { apply rows_of_absent. intros H. apply sorted_set_In, inb_In in H. congruence. }
    unfold region_row. rewrite A. reflexivity.
Qed.

(** ** Claims about the state summary *)

(** C3, as amended: the [Total_Crimes] of the state summary add up to the
    [Total_Crimes] of the filtered rows whose [Area_Name] is a catalogue
    region. *)
Theorem C3_conservation_within_catalog (states : list string) (df : list row) :
  Qsum (map s_Total_Crimes (state_summary states df)) ==
  sum_of Total_Crimes (filter (fun r => inb (Area_Name r) (get_all_states_df states)) df).
Proof.
  rewrite state_summary_rows, map_map. simpl.
  apply (sum_by_groups Area_Name Total_Crimes df).
  apply sorted_set_NoDup.
Qed.

(** C3, as stated, fails: the rows of a district-level dataset carry 7
    crimes, and the state summary carries none of them. *)
Lemma C3_counterexample :
  exists df,
    normalized Decimal.parse "frauds_cleaned.csv" by_district = Some df /\
    sum_of Total_Crimes df == 7 /\
    Qsum (map s_Total_Crimes (state_summary ["Goa"; "Maharashtra"] df)) == 0 /\
    ~ (Qsum (map s_Total_Crimes (state_summary ["Goa"; "Maharashtra"] df)) ==
       sum_of Total_Crimes df).
Proof.
  eexists. split; [reflexivity|].
  split; [reflexivity|]. split; [reflexivity|]. discriminate.
Qed.

(** C10: a row whose [Area_Name] is not a catalogue region leaves no trace
    in the state summary, nor in the three top-line figures computed from
    it; the summary is computed all the same. *)
Theorem C10_outside_rows_dropped (states : list string) (before after : list row) (r : row) :
  ~ In (Area_Name r) (get_all_states_df states) ->
  state_summary states (before ++ r :: after) = state_summary states (before ++ after) /\
  total_crimes (state_summary states (before ++ r :: after)) =
    total_crimes (state_summary states (before ++ after)) /\
  total_recovered (state_summary states (before ++ r :: after)) =
    total_recovered (state_summary states (before ++ after)) /\
  recovery_rate (state_summary states (before ++ r :: after)) =
    recovery_rate (state_summary states (before ++ after)).
Proof.
  intros H.
  assert (E : state_summary states (before ++ r :: after) =
              state_summary states (before ++ after)).
  { rewrite !state_summary_rows. apply map_ext_in. intros a Ha.
    unfold region_row, rows_of. rewrite !filter_app. simpl.
    destruct (String.eqb_spec (Area_Name r) a) as [E|_]; [|reflexivity].
    rewrite <- E in Ha. contradiction. }
  rewrite E. auto.
Qed.

Lemma C10_outside_rows_dropped_witness :
  state_summary ["Goa"] (two_rows ++ mkRow "Pune" None "Overall" "Overall" 7 0 0 0 :: []) =
    state_summary ["Goa"] (two_rows ++ []) /\
  total_crimes
    (state_summary ["Goa"] (two_rows ++ mkRow "Pune" None "Overall" "Overall" 7 0 0 0 :: []))
  = 10%Z.
Proof.
  destruct (C10_outside_rows_dropped ["Goa"] two_rows []
              (mkRow "Pune" None "Overall" "Overall" 7 0 0 0)) as (E & T & _).
  - simpl. intros [H|[]]. discriminate H.
  - split; [exact E | rewrite T; reflexivity].
Defined.

(** C9: in every group of the regional aggregation, and in every row of
    the state summary, the recovery rate is the summed [Total_Recovered]
    over the summed [Total_Crimes] of the region's rows when the latter is
    positive, and 0 otherwise. *)
Theorem C9_rate_from_sums (states : list string) (df : list row) (s : state_row) :
  In s (state_agg df) \/ In s (state_summary states df) ->
  s_Total_Crimes s = sum_of Total_Crimes (rows_of Area_Name (s_Area_Name s) df) /\
  s_Total_Recovered s = sum_of Total_Recovered (rows_of Area_Name (s_Area_Name s) df) /\
  (0 < s_Total_Crimes s -> s_Recovery_Rate s == s_Total_Recovered s / s_Total_Crimes s) /\
  (~ 0 < s_Total_Crimes s -> s_Recovery_Rate s = 0).
Proof.
  intros H.
  assert (R : exists a, s = region_row df a).
  { destruct H as [H|H];
      [rewrite state_agg_rows in H | rewrite state_summary_rows in H];
      apply in_map_iff in H; destruct H as (a & <- & _); exists a; reflexivity. }
  destruct R as [a ->]. simpl. repeat split.
  - apply rate_positive.
  - apply rate_otherwise.
Qed.

Lemma C9_rate_from_sums_witness :
  exists s,
    In s (state_summary ["Goa"] two_rows) /\
    s_Total_Crimes s == 10 /\ s_Total_Recovered s == 5 /\ s_Recovery_Rate s == 1 # 2.
Proof.
  exists (region_row two_rows "Goa").
  assert (I : In (region_row two_rows "Goa") (state_summary ["Goa"] two_rows)).
  { left. reflexivity. }
  destruct (C9_rate_from_sums ["Goa"] two_rows _ (or_intror I)) as (_ & _ & P & _).
  split; [exact I|]. split; [reflexivity|]. split; [reflexivity|].
  rewrite P; reflexivity.
Defined.

(** C5, as amended: every catalogue region has exactly one row in the
    state summary; the row of a region without filtered rows is all zero;
    and a summed field is non-negative when that field is non-negative in
    the region's rows, the recovery rate when [Total_Recovered] is. *)
Theorem C5_complete_and_zero_filled (states : list string) (df : list row) (r : string) :
  In r (get_all_states_df states) ->
  exists s,
    filter (fun x => String.eqb (s_Area_Name x) r) (state_summary states df) = [s] /\
    (~ In r (map Area_Name df) ->
       s_Total_Crimes s = 0 /\ s_Total_Recovered s = 0 /\
       s_Loss_Value s = 0 /\ s_Recovery_Rate s = 0) /\
    (Forall (fun x => 0 <= Total_Crimes x) (rows_of Area_Name r df) ->
       0 <= s_Total_Crimes s) /\
    (Forall (fun x => 0 <= Total_Recovered x) (rows_of Area_Name r df) ->
       0 <= s_Total_Recovered s /\ 0 <= s_Recovery_Rate s) /\
    (Forall (fun x => 0 <= Loss_Value x) (rows_of Area_Name r df) ->
       0 <= s_Loss_Value s).
Proof.
  intros Hr. exists (region_row df r). split.
  - rewrite state_summary_rows.
    rewrite (filter_region_rows df _ r (sorted_set_NoDup _)).
    apply inb_In in Hr. unfold get_all_states_df in Hr. rewrite Hr. reflexivity.
  - assert (S : forall col, Forall (fun x => 0 <= col x) (rows_of Area_Name r df) ->
                  0 <= sum_of col (rows_of Area_Name r df)).
    { intros col F. apply Qsum_nonneg. apply Forall_map. exact F. }
    simpl. split; [|split; [|split]].
    + intros A. rewrite (rows_of_absent _ _ _ A). repeat split; reflexivity.
    + apply S.
    + intros F. split; [apply S, F|].
      unfold rate.
      destruct (Qltb 0 (sum_of Total_Crimes (rows_of Area_Name r df))) eqn:E;
        [|apply Qle_refl].
      apply Qltb_true in E. apply Qle_shift_div_l; [exact E|].
      rewrite Qmult_0_l. apply S, F.
    + apply S.
Qed.

Lemma C5_complete_and_zero_filled_witness :
  exists s,
    filter (fun x => String.eqb (s_Area_Name x) "Kerala")
           (state_summary ["Kerala"; "Goa"; "Goa"] two_rows) = [s] /\
    s_Total_Crimes s = 0 /\ s_Recovery_Rate s = 0.
Proof.
  destruct (C5_complete_and_zero_filled ["Kerala"; "Goa"; "Goa"] two_rows "Kerala")
    as (s & F & Z & _).
  - right. left. reflexivity.
  - exists s. split; [exact F|].
    assert (A : ~ In "Kerala" (map Area_Name two_rows)).
    { simpl. intros [H|[H|[]]]; discriminate H. }
    destruct (Z A) as (c & _ & _ & t). auto.
Defined.

(** C5, as stated, fails: where more value was recovered than was stolen,
    the region's [Loss_Value] is negative. *)
Lemma C5_counterexample :
  exists df s,
    normalized Decimal.parse "property_crime_cleaned.csv" recovered_more = Some df /\
    In "Goa" (get_all_states_df ["Goa"]) /\
    filter (fun x => String.eqb (s_Area_Name x) "Goa") (state_summary ["Goa"] df) = [s] /\
    s_Loss_Value s == - (150) /\
    ~ 0 <= s_Loss_Value s.
Proof.
  eexists. eexists. split; [reflexivity|].
  split; [left; reflexivity|]. split; [reflexivity|].
  split; [reflexivity|]. intros H. apply Qle_bool_iff in H. discriminate H.
Qed.

(** ** The sub-group breakdown *)

Lemma insert_desc_perm (x : string * Q) (l : list (string * Q)) :
  Permutation (insert_desc x l) (x :: l).
Proof.
  induction l as [|y l IH]; simpl; [reflexivity|].
  destruct (Qle_bool (snd y) (snd x)); [reflexivity|].
  rewrite IH. apply perm_swap.
Qed.

Lemma insert_desc_sorted (x : string * Q) (l : list (string * Q)) :
  StronglySorted desc l -> StronglySorted desc (insert_desc x l).
Proof.
  induction 1 as [|y l S IH F]; simpl; [repeat constructor|].
  destruct (Qle_bool (snd y) (snd x)) eqn:L.
  - apply Qle_bool_iff in L. constructor; [constructor; assumption|].
    constructor; [exact L|].
    eapply Forall_impl; [|exact F]. unfold desc. intros z Hz.
    apply Qle_trans with (snd y); assumption.
  - constructor; [exact IH|].
    eapply Permutation_Forall.
    + symmetry. apply insert_desc_perm.
    + constructor; [|exact F]. unfold desc.
      destruct (Qlt_le_dec (snd y) (snd x)) as [Lt|Le]; [|exact Le].
      apply Qlt_le_weak in Lt. apply Qle_bool_iff in Lt. congruence.
Qed.

Lemma stable_sort_desc_contract : sort_contract stable_sort_desc.
Proof.
  intros l. unfold stable_sort_desc. induction l as [|x l [P S]]; simpl.
  - split; [reflexivity | constructor].
  - split; [rewrite insert_desc_perm, P; reflexivity | apply insert_desc_sorted, S].
Qed.

Lemma reversing_sort_desc_contract : sort_contract reversing_sort_desc.
Proof.
  intros l. unfold reversing_sort_desc.
  destruct (stable_sort_desc_contract (rev l)) as [P S]. split; [|exact S].
  rewrite P. symmetry. apply Permutation_rev.
Qed.

Lemma StronglySorted_app {A : Type} (R : A -> A -> Prop) (l1 l2 : list A) :
  StronglySorted R (l1 ++ l2) ->
  StronglySorted R l1 /\ Forall (fun x => Forall (R x) l2) l1.
Proof.
  induction l1 as [|x l1 IH]; simpl; intros H.
  - split; constructor.
  - inversion H as [|y l S F]; subst. destruct (IH S) as [S1 F1].
    apply Forall_app in F. destruct F as [Fa Fb].
    split; constructor; assumption.
Qed.

Lemma sub_groups_keys (df : list row) :
  map fst (sub_groups df) = sorted_set (map Sub_Group_Name df).
Proof.
  unfold sub_groups, groupby. rewrite !map_map. simpl. apply map_id.
Qed.

Lemma sub_groups_In (df : list row) (k : string) (v : Q) :
  In (k, v) (sub_groups df) <->
  In k (map Sub_Group_Name df) /\ v = sum_of Total_Crimes (rows_of Sub_Group_Name k df).
Proof.
  unfold sub_groups, groupby. rewrite map_map. simpl. rewrite in_map_iff. split.
  - intros (k' & E & H). injection E as -> ->.
    apply (proj1 (sorted_set_In _ _)) in H. split; [exact H | reflexivity].
  - intros [H ->]. exists k. split; [reflexivity | apply sorted_set_In, H].
Qed.

(** C4, as amended: whatever sort meets the contract of [sort_values], the
    breakdown is cut out of the per-sub-group sums of [Total_Crimes]: the
    groups are the distinct [Sub_Group_Name]s in ascending order of the
    name, each with the sum over its rows; the result is in descending
    order of the sum, has [min 15 (number of groups)] rows, and no group
    left out has a larger sum than a group kept. *)
Theorem C4_sub_grp_top_15
    (sort_values : list (string * Q) -> list (string * Q))
    (selected_state : string) (df : list row) :
  sort_contract sort_values ->
  let d := drill selected_state df in
  let out := sub_grp sort_values selected_state df in
  (forall k v, In (k, v) (sub_groups d) <->
     In k (map Sub_Group_Name d) /\ v = sum_of Total_Crimes (rows_of Sub_Group_Name k d)) /\
  NoDup (map fst (sub_groups d)) /\
  Sorted (fun a b => String.leb a b = true) (map fst (sub_groups d)) /\
  StronglySorted desc out /\
  List.length out = Nat.min 15 (List.length (sub_groups d)) /\
  exists rest,
    Permutation (out ++ rest) (sub_groups d) /\
    Forall (fun x => Forall (fun y => snd y <= snd x) rest) out.
Proof.
  intros C d out.
  destruct (C (sub_groups d)) as [P S].
  assert (E : out ++ skipn 15 (sort_values (sub_groups d)) = sort_values (sub_groups d))
    by apply firstn_skipn.
  rewrite <- E in S. apply StronglySorted_app in S. destruct S as [S1 S2].
  split; [apply sub_groups_In|].
  split; [rewrite sub_groups_keys; apply sorted_set_NoDup|].
  split; [rewrite sub_groups_keys; apply sorted_ordered|].
  split; [exact S1|]. split.
  - unfold out, sub_grp. fold d. rewrite length_firstn.
    rewrite (Permutation_length P). reflexivity.
  - exists (skipn 15 (sort_values (sub_groups d))). split; [rewrite E; exact P | exact S2].
Qed.

Lemma C4_sub_grp_top_15_witness :
  StronglySorted desc (sub_grp stable_sort_desc "All India" tied_rows) /\
  List.length (sub_grp stable_sort_desc "All India" tied_rows) = 2%nat.
Proof.
  destruct (C4_sub_grp_top_15 stable_sort_desc "All India" tied_rows
              stable_sort_desc_contract) as (_ & _ & _ & S & L & _).
  split; [exact S | exact L].
Defined.

(** C4, as stated, fails on its tie rule.  Burglary is met before Arson
    and both total 5: a stable sort returns Arson first, because the groups
    reach the sort in ascending order of their name; and another sort that
    meets the contract of the default [sort_values] returns them the other
    way round, so the order of ties is not fixed by the code. *)
Lemma C4_counterexample :
  sort_contract stable_sort_desc /\
  sort_contract reversing_sort_desc /\
  sub_groups (drill "All India" tied_rows) = [("Arson", 5 + 0); ("Burglary", 5 + 0)] /\
  sub_grp stable_sort_desc "All India" tied_rows = [("Arson", 5 + 0); ("Burglary", 5 + 0)] /\
  sub_grp reversing_sort_desc "All India" tied_rows = [("Burglary", 5 + 0); ("Arson", 5 + 0)] /\
  sub_grp_in_encounter_order "All India" tied_rows = [("Burglary", 5 + 0); ("Arson", 5 + 0)] /\
  sub_grp stable_sort_desc "All India" tied_rows <>
    sub_grp_in_encounter_order "All India" tied_rows.
Proof.
  split; [exact stable_sort_desc_contract|].
  split; [exact reversing_sort_desc_contract|].
  repeat (split; [reflexivity|]). discriminate.
Qed.

(** ** The recovery rate of a normalised row *)

Lemma sequence_map_Some {A : Type} (l : list A) : sequence (map Some l) = Some l.
Proof.
  induction l as [|a l IH]; simpl; [reflexivity|]. rewrite IH. reflexivity.
Qed.

Lemma sequence_repeat {A : Type} (a : A) (n : nat) :
  sequence (repeat (Some a) n) = Some (repeat a n).
Proof.
  induction n as [|n IH]; simpl; [reflexivity|]. rewrite IH. reflexivity.
Qed.

Lemma nth_error_map2 {A B C : Type} (f : A -> B -> C) (l1 : list A) (l2 : list B)
    (i : nat) (a : A) (b : B) (c : C) :
  nth_error l1 i = Some a -> nth_error l2 i = Some b ->
  nth_error (map2 f l1 l2) i = Some c -> c = f a b.
Proof.
  revert l2 i. induction l1 as [|x l1 IH]; intros [|y l2] [|i]; simpl;
    try discriminate.
  - intros [= ->] [= ->] [= <-]. reflexivity.
  - apply IH.
Qed.

Lemma nth_error_repeat_Some {A : Type} (a b : A) (n i : nat) :
  nth_error (repeat a n) i = Some b -> b = a.
Proof.
  intros H. apply nth_error_In in H. apply repeat_spec in H. exact H.
Qed.

Lemma zip_rows_In (a : list string) (y : list (option Z)) (g s : list string)
    (c r l t : list Q) (x : row) :
  In x (zip_rows a y g s c r l t) ->
  exists i,
    nth_error c i = Some (Total_Crimes x) /\
    nth_error r i = Some (Total_Recovered x) /\
    nth_error t i = Some (Recovery_Rate x).
Proof.
  revert y g s c r l t.
  induction a as [|a1 a IH]; intros [|y1 y] [|g1 g] [|s1 s] c r l t; simpl;
    try contradiction.
  destruct c as [|c1 c], r as [|r1 r], l as [|l1 l], t as [|t1 t]; simpl;
    try contradiction.
  intros [<-|H].
  - exists 0%nat. simpl. auto.
  - destruct (IH _ _ _ _ _ _ _ H) as (i & H1 & H2 & H3). exists (S i). auto.
Qed.

Section RateFacts.

Variable parse : string -> option (option Q).

(** The three columns the rate is read off, as [load_data] leaves them. *)
Lemma load_data_rate_columns (file_path : string) (df out : DataFrame) :
  load_data parse file_path df = Ok out ->
  exists c r t,
    number_column out "Total_Crimes" = Some c /\
    number_column out "Total_Recovered" = Some r /\
    number_column out "Recovery_Rate" = Some t /\
    forall i x y z,
      nth_error c i = Some x -> nth_error r i = Some y -> nth_error t i = Some z ->
      z == rate x y.
Proof.
  intros L. apply load_data_cases in L.
  destruct L as (df4 & df5 & a & _ & K & _ & ->).
  unfold number_column. rewrite !FrameFacts.get_set. simpl.
  rewrite !get_default_groups_other by reflexivity.
  apply kind_step_cases in K.
  destruct K as [[_ (cr & re & st & ba & _ & _ & _ & _ & ->)] | [_ (b & s & _ & _ & ->)]].
  - rewrite !FrameFacts.get_set. simpl. unfold num_col. rewrite !sequence_map_Some.
    exists cr, re, (map2 rate cr re). repeat split.
    intros i x y z Hx Hy Hz. rewrite (nth_error_map2 _ _ _ _ _ _ _ Hx Hy Hz). reflexivity.
  - rewrite !get_set_scalar_num, !FrameFacts.get_set. simpl.
    unfold num_col. rewrite !sequence_map_Some, !sequence_repeat.
    eexists. eexists. eexists. repeat split.
    intros i x y z Hx Hy Hz.
    apply nth_error_repeat_Some in Hy, Hz. subst.
    unfold rate. destruct (Qltb 0 x); [|reflexivity].
    unfold Qdiv. rewrite Qmult_0_l. reflexivity.
Qed.

End RateFacts.

(** C2, as amended: in every row [load_data] produces, [Recovery_Rate] is
    [Total_Recovered / Total_Crimes] when [Total_Crimes > 0] and 0
    otherwise; it lies in [0,1] when the recovered count lies between 0
    and the count of crimes. *)
Theorem C2_recovery_rate
    (parse : string -> option (option Q)) (file_path : string) (raw : DataFrame)
    (df : list row) (x : row) :
  normalized parse file_path raw = Some df ->
  In x df ->
  (0 < Total_Crimes x -> Recovery_Rate x == Total_Recovered x / Total_Crimes x) /\
  (~ 0 < Total_Crimes x -> Recovery_Rate x == 0) /\
  (0 <= Total_Recovered x <= Total_Crimes x -> 0 <= Recovery_Rate x <= 1).
Proof.
  unfold normalized. intros N Hx.
  destruct (load_data parse file_path raw) as [out|] eqn:L; [|discriminate].
  destruct (load_data_rate_columns parse file_path raw out L)
    as (c & r & t & Hc & Hr & Ht & R).
  unfold records in N. rewrite Hc, Hr, Ht in N.
  destruct (text_column out "Area_Name"); [|discriminate].
  destruct (text_column out "Group_Name"); [|discriminate].
  destruct (text_column out "Sub_Group_Name"); [|discriminate].
  destruct (number_column out "Loss_Value"); [|discriminate].
  injection N as <-.
  apply zip_rows_In in Hx. destruct Hx as (i & H1 & H2 & H3).
  pose proof (R i _ _ _ H1 H2 H3) as E.
  split; [|split].
  - intros P. rewrite E. apply rate_positive, P.
  - intros P. rewrite E, (rate_otherwise _ _ P). reflexivity.
  - intros [P1 P2]. rewrite E. unfold rate.
    destruct (Qltb 0 (Total_Crimes x)) eqn:B.
    + apply Qltb_true in B. split.
      * apply Qle_shift_div_l; [exact B|]. rewrite Qmult_0_l. exact P1.
      * apply Qle_shift_div_r; [exact B|]. rewrite Qmult_1_l. exact P2.
    + split; [apply Qle_refl | discriminate].
Qed.

Lemma C2_recovery_rate_witness :
  Recovery_Rate (mkRow "Goa" None "Overall" "Overall" 10 5 0 (rate 10 5)) == 5 / 10 /\
  0 <= Recovery_Rate (mkRow "Goa" None "Overall" "Overall" 10 5 0 (rate 10 5)) <= 1.
Proof.
  destruct (C2_recovery_rate Decimal.parse "property_crime_cleaned.csv"
       [("Area_Name", SObj [Some "Goa"; Some "Goa"]);
        ("Cases_Property_Stolen", SNum [Some 10; Some 0]);
        ("Cases_Property_Recovered", SNum [Some 5; Some 0]);
        ("Value_of_Property_Stolen", SNum [Some 0; Some 0]);
        ("Value_of_Property_Recovered", SNum [Some 0; Some 0])]
       two_rows (mkRow "Goa" None "Overall" "Overall" 10 5 0 (rate 10 5))
       eq_refl (or_introl eq_refl)) as (P & _ & B).
  split.
  - apply P. reflexivity.
  - apply B. simpl. split; discriminate.
Defined.

(** C2, as stated, fails: where 20 cases were recovered and 10 stolen, the
    rate of the normalised row is 2. *)
Lemma C2_counterexample :
  exists df x,
    normalized Decimal.parse "property_crime_cleaned.csv" recovered_more = Some df /\
    In x df /\
    Total_Crimes x == 10 /\ Total_Recovered x == 20 /\
    Recovery_Rate x == 2 /\ ~ Recovery_Rate x <= 1.
Proof.
  eexists. eexists. split; [reflexivity|]. split; [left; reflexivity|].
  repeat (split; [reflexivity|]).
  intros H. apply Qle_bool_iff in H. discriminate H.
Qed.

(** ** Running the normaliser on its own output *)

Lemma STATE_MAP_values (x v : string) :
  assoc x STATE_MAP = Some v -> Text.strip v = v /\ assoc v STATE_MAP = None.
Proof.
  unfold STATE_MAP. simpl. intros H.
  repeat match type of H with
         | (if ?b then _ else _) = _ =>
             destruct b; [injection H as <-; split; reflexivity|]
         end.
  discriminate H.
Qed.

Lemma replace_state_idem (o : option string) :
  replace_state (replace_state o) = replace_state o.
Proof.
  destruct o as [x|]; [|reflexivity]. unfold replace_state.
  destruct (assoc x STATE_MAP) as [v|] eqn:E.
  - destruct (STATE_MAP_values x v E) as [_ ->]. reflexivity.
  - rewrite E. reflexivity.
Qed.

Lemma replace_series_idem (s : series) :
  replace_series (replace_series s) = replace_series s.
Proof.
  destruct s as [l|l]; simpl; [|reflexivity].
  rewrite map_map. f_equal. apply map_ext. intros o. apply replace_state_idem.
Qed.

Lemma slen_replace_series (s : series) : slen (replace_series s) = slen s.
Proof. destruct s; simpl; [apply length_map | reflexivity]. Qed.

Lemma strip_series_idem (s : series) : strip_series (strip_series s) = strip_series s.
Proof.
  destruct s as [l|l]; simpl; [|reflexivity].
  rewrite map_map. f_equal. apply map_ext. intros o. simpl.
  rewrite TextFacts.strip_idem. reflexivity.
Qed.

Lemma strip_series_replace (s : series) :
  strip_series s = s -> strip_series (replace_series s) = replace_series s.
Proof.
  destruct s as [l|l]; simpl; [|reflexivity].
  intros H. injection H as H. f_equal. rewrite map_map.
  induction l as [|o l IH]; simpl in *; [reflexivity|].
  injection H as Ho Hl. rewrite (IH Hl). f_equal.
  destruct o as [x|]; [|discriminate Ho].
  unfold astype_str in Ho. injection Ho as Hx. unfold replace_state, astype_str.
  destruct (assoc x STATE_MAP) as [v|] eqn:E.
  - destruct (STATE_MAP_values x v E) as [-> _]. reflexivity.
  - rewrite Hx. reflexivity.
Qed.

Lemma strip_series_overall (n : nat) :
  strip_series (SObj (repeat (Some "Overall") n)) = SObj (repeat (Some "Overall") n).
Proof.
  simpl. f_equal. induction n as [|n IH]; simpl; [reflexivity|].
  rewrite IH. reflexivity.
Qed.

Lemma fill0_map_Some (l : list Q) : map fill0 (map Some l) = l.
Proof.
  induction l as [|q l IH]; simpl; [reflexivity|]. rewrite IH. reflexivity.
Qed.

Section Idempotence.

Variable parse : string -> option (option Q).

Import Frame FrameFacts.

Lemma to_numeric_ignore_idem (s : series) :
  to_numeric_ignore parse (to_numeric_ignore parse s) = to_numeric_ignore parse s.
Proof.
  destruct s as [l|l]; simpl; [|reflexivity].
  destruct (forallb (parses parse) l) eqn:E; simpl; [reflexivity|].
  rewrite E. reflexivity.
Qed.

Lemma strip_series_to_numeric_ignore (s : series) :
  strip_series s = s -> strip_series (to_numeric_ignore parse s) = to_numeric_ignore parse s.
Proof.
  destruct s as [l|l]; simpl; [|reflexivity].
  destruct (forallb (parses parse) l); simpl; [reflexivity|]. exact (fun H => H).
Qed.

Lemma to_numeric_fillna_num_col (l : list Q) :
  to_numeric_fillna parse (num_col l) = l.
Proof. simpl. apply fill0_map_Some. Qed.

Lemma tidy_numeric (c : string) (l : list (option Q)) : tidy parse c (SNum l).
Proof. split; reflexivity. Qed.

Lemma astype_Int64_fixed (s y : series) :
  astype_Int64 s = Ok y ->
  y = s /\ exists l, y = SNum l /\ astype_Int64 (to_numeric_coerce parse y) = Ok y.
Proof.
  destruct s as [l|l]; simpl; [discriminate|].
  destruct (forallb is_integral l) eqn:E; [|discriminate].
  intros [= <-]. split; [reflexivity|]. exists l. split; [reflexivity|].
  simpl. rewrite E. reflexivity.
Qed.

Lemma year_settled_numeric (df : DataFrame) (s : series) :
  year_settled parse df -> get df "Year" = Some s -> exists l, s = SNum l.
Proof.
  intros Y G. specialize (Y s G). destruct s as [l|l]; [|eauto].
  simpl in Y. destruct (forallb is_integral (map (coerce_cell parse) l)); discriminate Y.
Qed.

Lemma first_alias_In (df : DataFrame) (alts : list string) (alt : string) :
  first_alias df alts = Some alt -> In alt alts.
Proof.
  induction alts as [|a alts IH]; simpl; [discriminate|].
  destruct (has df a); [intros [= ->]; auto | auto].
Qed.

Lemma get_resolve_area_other (df : DataFrame) (c : string) :
  existsb (String.eqb c) ("Area_Name" :: AREA_ALIASES) = false ->
  get (resolve_area df) c = get df c.
Proof.
  intros Hc. unfold resolve_area.
  destruct (has df "Area_Name"); [reflexivity|].
  destruct (first_alias df AREA_ALIASES) as [alt|] eqn:F; [|reflexivity].
  apply first_alias_In in F. apply get_rename_other.
  - intros ->. apply inb_In in F. unfold inb in F. simpl in Hc, F.
    apply orb_false_iff in Hc. destruct Hc as [_ Hc]. congruence.
  - intros ->. simpl in Hc. discriminate Hc.
Qed.

Lemma Forall_rename (P : series -> Prop) (df : DataFrame) (old new : string) :
  Forall (fun cs => P (snd cs)) df -> Forall (fun cs => P (snd cs)) (rename df old new).
Proof.
  unfold rename. intros H. apply Forall_map. simpl. exact H.
Qed.

Lemma Forall_resolve_area (P : series -> Prop) (df : DataFrame) :
  Forall (fun cs => P (snd cs)) df -> Forall (fun cs => P (snd cs)) (resolve_area df).
Proof.
  intros H. unfold resolve_area. destruct (has df "Area_Name"); [exact H|].
  destruct (first_alias df AREA_ALIASES); [apply Forall_rename, H | exact H].
Qed.

(** What holds of the frame that leaves [prepare]. *)
Lemma prepare_tidy (df df4 : DataFrame) :
  prepare parse df = Ok df4 ->
  Forall (fun cs => tidy parse (fst cs) (snd cs)) df4 /\ year_settled parse df4.
Proof.
  unfold prepare.
  destruct (year_step parse (strip_all df)) as [df2|] eqn:Y; simpl; [|discriminate].
  intros [= <-].
  assert (S1 : Forall (fun cs => strip_series (snd cs) = snd cs) (strip_all df)).
  { apply (Forall_map_cols (fun _ s => strip_series s = s)).
    intros c s _. apply strip_series_idem. }
  assert (S2 : Forall (fun cs => strip_series (snd cs) = snd cs) df2 /\ year_settled parse df2).
  { unfold year_step in Y. destruct (get (strip_all df) "Year") as [s|] eqn:G.
    - destruct (astype_Int64 (to_numeric_coerce parse s)) as [y|] eqn:A;
        simpl in Y; [|discriminate].
      injection Y as <-. apply astype_Int64_fixed in A.
      destruct A as (_ & l & -> & A). split.
      + apply (Forall_set (fun _ s => strip_series s = s)); [exact S1 | reflexivity].
      + intros s'. rewrite get_set. simpl. intros [= <-]. exact A.
    - injection Y as <-. split; [exact S1|].
      intros s'. rewrite G. discriminate. }
  destruct S2 as [S2 Y2]. split.
  - apply (Forall_map_cols (tidy parse)). intros c s Hin.
    assert (St : strip_series s = s).
    { apply (Forall_resolve_area (fun s => strip_series s = s)) in S2.
      rewrite Forall_forall in S2. exact (S2 (c, s) Hin). }
    destruct (existsb (String.eqb c) CATEGORICAL) eqn:C; split.
    + exact St.
    + intros C'. congruence.
    + apply strip_series_to_numeric_ignore, St.
    + intros _. apply to_numeric_ignore_idem.
  - intros s. rewrite get_convert_numeric. simpl.
    rewrite get_resolve_area_other by reflexivity.
    destruct (get df2 "Year") as [y|] eqn:G; simpl; [|discriminate].
    intros [= <-].
    destruct (year_settled_numeric df2 y Y2 G) as [l ->]. simpl.
    exact (Y2 _ G).
Qed.

End Idempotence.

Section FixedPoint.

Variable parse : string -> option (option Q).

Import Frame FrameFacts.

Local Abbreviation tidy_frame df := (Forall (fun cs => tidy parse (fst cs) (snd cs)) df).

Lemma kind_step_tidy (file_path : string) (df out : DataFrame) :
  kind_step parse file_path df = Ok out -> tidy_frame df -> tidy_frame out.
Proof.
  intros K T. apply kind_step_cases in K.
  destruct K as [[_ (cr & re & st & ba & _ & _ & _ & _ & ->)] | [_ (b & s & _ & _ & ->)]];
    unfold set_scalar_num, num_col;
    repeat (apply (Forall_set (tidy parse)); [|apply tidy_numeric]); exact T.
Qed.

Lemma default_groups_tidy (df : DataFrame) : tidy_frame df -> tidy_frame (default_groups df).
Proof.
  intros T. unfold default_groups, set_scalar_str.
  assert (O : forall c n, existsb (String.eqb c) CATEGORICAL = true ->
                          tidy parse c (SObj (repeat (Some "Overall") n))).
  { intros c n C. split; [apply strip_series_overall | congruence]. }
  destruct (has df "Group_Name");
    match goal with |- context [if has ?d "Sub_Group_Name" then _ else _] =>
      destruct (has d "Sub_Group_Name") end;
    repeat (apply (Forall_set (tidy parse)); [|apply O; reflexivity]); exact T.
Qed.

Lemma canonical_tidy (df : DataFrame) (a : series) :
  tidy_frame df -> get df "Area_Name" = Some a ->
  tidy_frame (set df "Area_Name" (replace_series a)).
Proof.
  intros T G. apply (Forall_set (tidy parse)); [exact T|].
  apply get_In in G. rewrite Forall_forall in T. destruct (T _ G) as [S _].
  split; [apply strip_series_replace, S | discriminate].
Qed.

Lemma strip_all_fixed (df : DataFrame) : tidy_frame df -> strip_all df = df.
Proof.
  intros T. apply map_cols_id. eapply Forall_impl; [|exact T].
  intros cs [S _]. exact S.
Qed.

Lemma convert_numeric_fixed (df : DataFrame) : tidy_frame df -> convert_numeric parse df = df.
Proof.
  intros T. apply map_cols_id. eapply Forall_impl; [|exact T].
  intros [c s] [_ N]. cbn [fst snd] in *.
  destruct (existsb (String.eqb c) CATEGORICAL); [reflexivity | apply N; reflexivity].
Qed.

Lemma year_step_fixed (df : DataFrame) : year_settled parse df -> year_step parse df = Ok df.
Proof.
  intros Y. unfold year_step. destruct (get df "Year") as [s|] eqn:G; [|reflexivity].
  rewrite (Y s G). simpl. rewrite (set_same _ _ _ G). reflexivity.
Qed.

Lemma prepare_fixed (df : DataFrame) :
  tidy_frame df -> year_settled parse df -> has df "Area_Name" = true ->
  prepare parse df = Ok df.
Proof.
  intros T Y A. unfold prepare.
  rewrite (strip_all_fixed df T), (year_step_fixed df Y). simpl.
  unfold resolve_area. rewrite A, (convert_numeric_fixed df T). reflexivity.
Qed.

Lemma default_groups_fixed (df : DataFrame) :
  has df "Group_Name" = true -> has df "Sub_Group_Name" = true -> default_groups df = df.
Proof.
  intros G S. unfold default_groups. rewrite G, S. reflexivity.
Qed.

Lemma canonicalize_area_fixed (df : DataFrame) (a : series) :
  get df "Area_Name" = Some (replace_series a) -> canonicalize_area df = Ok df.
Proof.
  intros G. unfold canonicalize_area. rewrite G, replace_series_idem.
  rewrite (set_same _ _ _ G). reflexivity.
Qed.

Lemma property_kind_fixed (df : DataFrame) (s1 s2 s3 s4 : series) :
  get df "Cases_Property_Stolen" = Some s1 ->
  get df "Cases_Property_Recovered" = Some s2 ->
  get df "Value_of_Property_Stolen" = Some s3 ->
  get df "Value_of_Property_Recovered" = Some s4 ->
  get df "Total_Crimes" = Some (num_col (to_numeric_fillna parse s1)) ->
  get df "Total_Recovered" = Some (num_col (to_numeric_fillna parse s2)) ->
  get df "Total_Value_Stolen" = Some (num_col (to_numeric_fillna parse s3)) ->
  get df "Total_Value_Recovered" = Some (num_col (to_numeric_fillna parse s4)) ->
  get df "Loss_Value" =
    Some (num_col (map2 Qminus (to_numeric_fillna parse s3) (to_numeric_fillna parse s4))) ->
  get df "Recovery_Rate" =
    Some (num_col (map2 rate (to_numeric_fillna parse s1) (to_numeric_fillna parse s2))) ->
  property_kind parse df = Ok df.
Proof.
  intros G1 G2 G3 G4 H1 H2 H3 H4 H5 H6. unfold property_kind, get_or_zero.
  rewrite G1. simpl. rewrite (set_same _ _ _ H1).
  rewrite G2. simpl. rewrite (set_same _ _ _ H2).
  rewrite G3. simpl. rewrite (set_same _ _ _ H3).
  rewrite G4. simpl. rewrite (set_same _ _ _ H4).
  rewrite (set_same _ _ _ H5), (set_same _ _ _ H6). reflexivity.
Qed.

Lemma generic_kind_fixed (file_path : string) (df : DataFrame) (base : string) (s : series) :
  base_col (numeric_cols df) = Some base ->
  get df base = Some s ->
  get df "Total_Crimes" = Some (num_col (to_numeric_fillna parse s)) ->
  get df "Total_Recovered" = Some (zeros (nrows df)) ->
  get df "Loss_Value" = Some (zeros (nrows df)) ->
  get df "Recovery_Rate" = Some (zeros (nrows df)) ->
  generic_kind parse file_path df = Ok df.
Proof.
  intros B G H1 H2 H3 H4. unfold generic_kind. rewrite B, G.
  rewrite (set_same _ _ _ H1). unfold set_scalar_num.
  fold (zeros (nrows df)). rewrite (set_same _ _ _ H2).
  fold (zeros (nrows df)). rewrite (set_same _ _ _ H3).
  fold (zeros (nrows df)). rewrite (set_same _ _ _ H4). reflexivity.
Qed.

End FixedPoint.

(** ** The preferred numeric columns under assignment *)

Lemma preferred_numeric_cons (d : string) (x : series) (df : DataFrame) :
  preferred_numeric ((d, x) :: df) =
  if is_numeric x && is_preferred d then d :: preferred_numeric df
  else preferred_numeric df.
Proof.
  unfold preferred_numeric, numeric_cols. simpl.
  destruct (is_numeric x); simpl; [|reflexivity].
  destruct (is_preferred d); reflexivity.
Qed.

Lemma preferred_numeric_app (df1 df2 : DataFrame) :
  preferred_numeric (df1 ++ df2) = preferred_numeric df1 ++ preferred_numeric df2.
Proof.
  unfold preferred_numeric, numeric_cols.
  rewrite filter_app, map_app, filter_app. reflexivity.
Qed.

(** Writing a column whose name is not preferred changes nothing. *)
Lemma preferred_numeric_set_other (df : DataFrame) (c : string) (s : series) :
  is_preferred c = false ->
  preferred_numeric (Frame.set df c s) = preferred_numeric df.
Proof.
  intros C. induction df as [|[d x] df IH]; simpl.
  - rewrite preferred_numeric_cons, C, andb_false_r. reflexivity.
  - destruct (String.eqb_spec c d) as [<-|_].
    + rewrite !preferred_numeric_cons, C, !andb_false_r. reflexivity.
    + rewrite !preferred_numeric_cons, IH. reflexivity.
Qed.

(** Appending a preferred numeric column puts it last. *)
Lemma preferred_numeric_set_new (df : DataFrame) (c : string) (s : series) :
  Frame.get df c = None -> is_numeric s = true -> is_preferred c = true ->
  preferred_numeric (Frame.set df c s) = preferred_numeric df ++ [c].
Proof.
  intros G N C. rewrite (FrameFacts.set_absent _ _ _ G), preferred_numeric_app.
  rewrite preferred_numeric_cons, N, C. reflexivity.
Qed.

(** Writing a preferred numeric column either makes it the first preferred
    numeric column or leaves the first one in place. *)
Lemma preferred_numeric_set_head (df : DataFrame) (c : string) (s : series) :
  is_numeric s = true -> is_preferred c = true ->
  hd_error (preferred_numeric (Frame.set df c s)) = Some c \/
  exists p, p <> c /\
    hd_error (preferred_numeric df) = Some p /\
    hd_error (preferred_numeric (Frame.set df c s)) = Some p.
Proof.
  intros N C. induction df as [|[d x] df IH]; simpl.
  - left. rewrite preferred_numeric_cons, N, C. reflexivity.
  - destruct (String.eqb_spec c d) as [<-|D].
    + left. rewrite preferred_numeric_cons, N, C. reflexivity.
    + rewrite !preferred_numeric_cons.
      destruct (is_numeric x && is_preferred d); [|exact IH].
      right. exists d. split; [congruence | split; reflexivity].
Qed.

Lemma base_col_head (numeric : list string) (p : string) :
  hd_error (filter is_preferred numeric) = Some p -> base_col numeric = Some p.
Proof.
  unfold base_col. destruct (filter is_preferred numeric); simpl; congruence.
Qed.

Lemma hd_error_app_Some {A : Type} (l l' : list A) (a : A) :
  hd_error l = Some a -> hd_error (l ++ l') = Some a.
Proof. destruct l; simpl; [discriminate | exact (fun H => H)]. Qed.

Lemma hd_preferred (numeric : list string) (p : string) :
  hd_error (filter is_preferred numeric) = Some p -> is_preferred p = true.
Proof.
  intros H. assert (I : In p (filter is_preferred numeric)).
  { destruct (filter is_preferred numeric); simpl in H; [discriminate|].
    injection H as ->. left. reflexivity. }
  apply filter_In in I. tauto.
Qed.

Lemma preferred_neq (b x : string) :
  is_preferred b = true -> is_preferred x = false -> String.eqb b x = false.
Proof.
  intros B X. destruct (String.eqb_spec b x) as [->|_]; [congruence | reflexivity].
Qed.

(** ** Rows and columns kept by the later steps *)

Lemma nrows_set_scalar_num (df : DataFrame) (c : string) (q : Q) :
  Frame.nrows (set_scalar_num df c q) = Frame.nrows df.
Proof.
  apply FrameFacts.nrows_set_rows. simpl. apply repeat_length.
Qed.

Lemma nrows_default_groups (df : DataFrame) :
  Frame.nrows (default_groups df) = Frame.nrows df.
Proof.
  assert (S : forall d c, Frame.nrows (set_scalar_str d c "Overall") = Frame.nrows d).
  { intros d c. apply FrameFacts.nrows_set_rows. simpl. apply repeat_length. }
  unfold default_groups.
  destruct (Frame.has df "Group_Name");
    match goal with |- context [if Frame.has ?d "Sub_Group_Name" then _ else _] =>
      destruct (Frame.has d "Sub_Group_Name") end;
    rewrite ?S; reflexivity.
Qed.

Lemma preferred_numeric_default_groups (df : DataFrame) :
  preferred_numeric (default_groups df) = preferred_numeric df.
Proof.
  unfold default_groups, set_scalar_str.
  destruct (Frame.has df "Group_Name");
    match goal with |- context [if Frame.has ?d "Sub_Group_Name" then _ else _] =>
      destruct (Frame.has d "Sub_Group_Name") end;
    rewrite ?preferred_numeric_set_other by reflexivity; reflexivity.
Qed.

Section PrepareKeeps.

Variable parse : string -> option (option Q).

Import Frame FrameFacts.

(** [prepare] neither adds nor removes a column, the region column's
    renaming apart. *)
Lemma prepare_has (df df4 : DataFrame) (c : string) :
  prepare parse df = Ok df4 ->
  existsb (String.eqb c) ("Area_Name" :: AREA_ALIASES) = false ->
  has df4 c = has df c.
Proof.
  unfold prepare.
  destruct (year_step parse (strip_all df)) as [df2|] eqn:Y; simpl; [|discriminate].
  intros [= <-] Hc.
  rewrite !has_get, get_convert_numeric, (get_resolve_area_other _ _ Hc).
  assert (E : has df2 c = has (strip_all df) c).
  { unfold year_step in Y. destruct (get (strip_all df) "Year") as [s|] eqn:G.
    - destruct (astype_Int64 (to_numeric_coerce parse s)); simpl in Y; [|discriminate].
      injection Y as <-. rewrite !has_get, get_set.
      destruct (String.eqb_spec c "Year") as [->|_]; [rewrite G|]; reflexivity.
    - injection Y as <-. reflexivity. }
  rewrite !has_get, get_strip_all in E.
  destruct (get df2 c), (get df c); simpl in *; congruence.
Qed.

End PrepareKeeps.

(** ** Idempotence *)

Section Twice.

Variable parse : string -> option (option Q).

Import Frame FrameFacts.

Lemma get_or_zero_Ok (df : DataFrame) (c : string) (l : list Q) :
  get_or_zero parse df c = Ok l ->
  exists s, get df c = Some s /\ l = to_numeric_fillna parse s.
Proof.
  unfold get_or_zero. destruct (get df c) as [s|]; [|discriminate].
  intros [= <-]. exists s. auto.
Qed.

(** The dataset-kind branch, run on the table [load_data] returned,
    returns that table. *)
Lemma kind_step_twice (file_path file_path' : string) (df4 df5 : DataFrame) (a : series) :
  has df4 "Cases_Property_Stolen" = true \/ get df4 "Total_Recovered" = None ->
  kind_step parse file_path df4 = Ok df5 ->
  get (default_groups df5) "Area_Name" = Some a ->
  kind_step parse file_path'
    (set (default_groups df5) "Area_Name" (replace_series a)) =
  Ok (set (default_groups df5) "Area_Name" (replace_series a)).
Proof.
  intros Hyp K GA.
  set (out := set (default_groups df5) "Area_Name" (replace_series a)).
  assert (G' : forall c, String.eqb c "Area_Name" = false ->
                         existsb (String.eqb c) GROUPS = false ->
                         get out c = get df5 c).
  { intros c C1 C2. unfold out. rewrite get_set, C1.
    apply get_default_groups_other, C2. }
  assert (HK : has out "Cases_Property_Stolen" = has df4 "Cases_Property_Stolen").
  { rewrite !has_get, G' by reflexivity.
    rewrite (kind_step_get_other parse _ _ _ "Cases_Property_Stolen" K) by reflexivity.
    reflexivity. }
  unfold kind_step. rewrite HK.
  pose proof K as K0. apply kind_step_cases in K.
  destruct K as [[H (cr & re & st & ba & E1 & E2 & E3 & E4 & D5)]
                | [H (b & s & B & G & D5)]]; rewrite H.
  - apply get_or_zero_Ok in E1, E2, E3, E4.
    destruct E1 as (s1 & G1 & ->), E2 as (s2 & G2 & ->),
             E3 as (s3 & G3 & ->), E4 as (s4 & G4 & ->).
    apply (property_kind_fixed parse out s1 s2 s3 s4);
      rewrite G' by reflexivity;
      try (rewrite (kind_step_get_other parse _ _ _ _ K0) by reflexivity; assumption);
      rewrite D5, !get_set; reflexivity.
  - destruct Hyp as [Hyp|TR]; [congruence|].
    set (v := to_numeric_fillna parse s) in *.
    set (d1 := set df4 "Total_Crimes" (num_col v)) in *.
    assert (N : nrows out = nrows d1).
    { unfold out. rewrite (nrows_set _ _ _ _ GA (slen_replace_series a)).
      rewrite nrows_default_groups, D5, !nrows_set_scalar_num. reflexivity. }
    assert (PN : preferred_numeric out = preferred_numeric d1 ++ ["Total_Recovered"]).
    { unfold out. rewrite preferred_numeric_set_other by reflexivity.
      rewrite preferred_numeric_default_groups, D5. unfold set_scalar_num.
      rewrite !preferred_numeric_set_other by reflexivity.
      apply preferred_numeric_set_new; try reflexivity.
      unfold d1. rewrite get_set. exact TR. }
    assert (Z : get out "Total_Crimes" = Some (num_col v) /\
                get out "Total_Recovered" = Some (zeros (nrows out)) /\
                get out "Loss_Value" = Some (zeros (nrows out)) /\
                get out "Recovery_Rate" = Some (zeros (nrows out))).
    { rewrite !G' by reflexivity. rewrite N, D5.
      rewrite !get_set_scalar_num, !nrows_set_scalar_num. simpl.
      unfold d1. rewrite get_set. auto. }
    destruct Z as (Z1 & Z2 & Z3 & Z4).
    destruct (preferred_numeric_set_head df4 "Total_Crimes" (num_col v) eq_refl eq_refl)
      as [Hd | (p & Np & Hp & Hd)]; fold d1 in Hd.
    + apply (generic_kind_fixed parse file_path' out "Total_Crimes" (num_col v));
        try assumption.
      * apply base_col_head. fold (preferred_numeric out). rewrite PN.
        apply hd_error_app_Some, Hd.
      * rewrite to_numeric_fillna_num_col. exact Z1.
    + assert (Bp : b = p).
      { apply base_col_head in Hp. congruence. }
      subst p.
      assert (Pb : is_preferred b = true) by exact (hd_preferred _ _ Hp).
      assert (Gb : get out b = Some s).
      { rewrite G'.
        - rewrite D5, !get_set_scalar_num. unfold d1. rewrite get_set.
          rewrite !(preferred_neq b) by (exact Pb || reflexivity).
          apply String.eqb_neq in Np. rewrite Np.
          destruct (String.eqb_spec b "Total_Recovered") as [->|_]; [congruence | exact G].
        - apply preferred_neq; [exact Pb | reflexivity].
        - simpl. rewrite !(preferred_neq b) by (exact Pb || reflexivity). reflexivity. }
      apply (generic_kind_fixed parse file_path' out b s); try assumption.
      apply base_col_head. fold (preferred_numeric out). rewrite PN.
      apply hd_error_app_Some, Hd.
Qed.

End Twice.

(** C8, as amended: for a table of the property-crime kind, or one without
    a column [Total_Recovered], the table [load_data] returns is returned
    unchanged when [load_data] is applied to it again. *)
Theorem C8_idempotent
    (parse : string -> option (option Q)) (file_path file_path' : string)
    (df out : DataFrame) :
  Frame.has df "Cases_Property_Stolen" = true \/ Frame.has df "Total_Recovered" = false ->
  load_data parse file_path df = Ok out ->
  load_data parse file_path' out = Ok out.
Proof.
  intros Hyp L. apply load_data_cases in L.
  destruct L as (df4 & df5 & a & P & K & GA & ->).
  destruct (prepare_tidy parse df df4 P) as [T4 Y4].
  set (out := Frame.set (default_groups df5) "Area_Name" (replace_series a)).
  assert (T : Forall (fun cs => tidy parse (fst cs) (snd cs)) out).
  { apply canonical_tidy; [|exact GA].
    apply default_groups_tidy, (kind_step_tidy parse file_path df4 df5 K T4). }
  assert (Y : year_settled parse out).
  { intros s. unfold out. rewrite FrameFacts.get_set. simpl.
    rewrite get_default_groups_other by reflexivity.
    rewrite (kind_step_get_other parse _ _ _ "Year" K) by reflexivity.
    apply Y4. }
  assert (A : Frame.has out "Area_Name" = true).
  { unfold out. rewrite FrameFacts.has_get, FrameFacts.get_set. reflexivity. }
  assert (G : Frame.has out "Group_Name" = true /\ Frame.has out "Sub_Group_Name" = true).
  { destruct (has_default_groups df5) as [G1 G2].
    unfold out. rewrite !FrameFacts.has_get, !FrameFacts.get_set in *. simpl. auto. }
  assert (Hyp4 : Frame.has df4 "Cases_Property_Stolen" = true \/
                 Frame.get df4 "Total_Recovered" = None).
  { destruct Hyp as [H|H]; [left | right; apply FrameFacts.has_false_get];
      rewrite (prepare_has parse df df4 _ P) by reflexivity; exact H. }
  unfold load_data.
  rewrite (prepare_fixed parse out T Y A). simpl.
  unfold out at 1.
  rewrite (kind_step_twice parse file_path file_path' df4 df5 a Hyp4 K GA). simpl.
  fold out. destruct G as [G1 G2]. rewrite (default_groups_fixed out G1 G2).
  apply (canonicalize_area_fixed out a).
  unfold out. rewrite FrameFacts.get_set. reflexivity.
Qed.

Lemma C8_idempotent_witness :
  exists out,
    load_data Decimal.parse "murder_cleaned.csv" murders = Ok out /\
    load_data Decimal.parse "murder_cleaned.csv" out = Ok out.
Proof.
  eexists. split; [reflexivity|].
  apply (C8_idempotent Decimal.parse "murder_cleaned.csv" "murder_cleaned.csv" murders).
  - right. reflexivity.
  - reflexivity.
Defined.

(** C8, as stated, fails: a generic dataset with a numeric column
    [Total_Recovered] is normalised with [Total_Crimes] = 5, and
    normalising that table again turns [Total_Crimes] into 0. *)
Lemma C8_counterexample :
  exists out again,
    load_data Decimal.parse "auto_theft_cleaned.csv" with_total_recovered = Ok out /\
    load_data Decimal.parse "auto_theft_cleaned.csv" out = Ok again /\
    Frame.get out "Total_Crimes" = Some (num_col [5]) /\
    Frame.get again "Total_Crimes" = Some (num_col [0]) /\
    again <> out.
Proof.
  eexists. eexists. repeat (split; [reflexivity|]). discriminate.
Qed.

(** * Further properties of the script *)

(** ** Catalogue and state summary *)

Lemma filter_all {A : Type} (f : A -> bool) (l : list A) :
  (forall x, In x l -> f x = true) -> filter f l = l.
Proof.
  induction l as [|a l IH]; simpl; intros H; [reflexivity|].
  rewrite (H a (or_introl eq_refl)), IH; [reflexivity|]. intros x Hx. apply H. auto.
Qed.

Lemma filter_none {A : Type} (f : A -> bool) (l : list A) :
  (forall x, In x l -> f x = false) -> filter f l = [].
Proof.
  induction l as [|a l IH]; simpl; intros H; [reflexivity|].
  rewrite (H a (or_introl eq_refl)). apply IH. intros x Hx. apply H. auto.
Qed.

Lemma Qsum_perm (l l' : list Q) : Permutation l l' -> Qsum l == Qsum l'.
Proof.
  induction 1 as [|x l l' P IH|x y l|l l' l'' P1 IH1 P2 IH2]; simpl.
  - reflexivity.
  - rewrite IH. reflexivity.
  - ring.
  - rewrite IH1. exact IH2.
Qed.

Lemma Qsum_zero (l : list Q) : Forall (fun q => q == 0) l -> Qsum l == 0.
Proof.
  induction 1 as [|q l Hq H IH]; simpl; [reflexivity|]. rewrite Hq, IH. reflexivity.
Qed.

Lemma int_zero (q : Q) : q == 0 -> int q = 0%Z.
Proof.
  unfold Qeq, int. simpl. intros H. rewrite Z.mul_1_r in H. rewrite H. reflexivity.
Qed.

(** The regional sums of one column add up to the column's total. *)
Lemma region_sums_total (col : row -> Q) (df : list row) :
  Qsum (map (fun a => sum_of col (rows_of Area_Name a df)) (sorted_set (map Area_Name df)))
  == sum_of col df.
Proof.
  rewrite (sum_by_groups Area_Name col df _ (sorted_set_NoDup _)).
  rewrite filter_all; [reflexivity|].
  intros x Hx. apply inb_In, sorted_set_In, in_map, Hx.
Qed.

(** The region catalogue lists each name of the boundary file once, in
    ascending order. *)
Theorem catalog_distinct_ascending (states : list string) :
  NoDup (get_all_states_df states) /\
  Sorted (fun a b => String.leb a b = true) (get_all_states_df states) /\
  forall x, In x (get_all_states_df states) <-> In x states.
Proof.
  split; [apply sorted_set_NoDup|]. split; [apply sorted_ordered|].
  intros x. apply sorted_set_In.
Qed.

(** The state summary has the catalogue's regions, in the catalogue's
    order, whatever the data. *)
Theorem state_summary_regions (states : list string) (df : list row) :
  map s_Area_Name (state_summary states df) = get_all_states_df states /\
  List.length (state_summary states df) = List.length (get_all_states_df states).
Proof.
  rewrite state_summary_rows. split.
  - rewrite map_map. simpl. apply map_id.
  - apply length_map.
Qed.

(** Before the join, the regional aggregation loses nothing: each summed
    column adds up to the column's total over the filtered rows. *)
Theorem state_agg_conserves (df : list row) :
  Qsum (map s_Total_Crimes (state_agg df)) == sum_of Total_Crimes df /\
  Qsum (map s_Total_Recovered (state_agg df)) == sum_of Total_Recovered df /\
  Qsum (map s_Loss_Value (state_agg df)) == sum_of Loss_Value df.
Proof.
  rewrite state_agg_rows, !map_map. simpl.
  repeat split; apply region_sums_total.
Qed.

(** When every filtered row belongs to a catalogue region, the state
    summary conserves the three summed columns. *)
Theorem state_summary_conserves (states : list string) (df : list row) :
  Forall (fun r => In (Area_Name r) states) df ->
  Qsum (map s_Total_Crimes (state_summary states df)) == sum_of Total_Crimes df /\
  Qsum (map s_Total_Recovered (state_summary states df)) == sum_of Total_Recovered df /\
  Qsum (map s_Loss_Value (state_summary states df)) == sum_of Loss_Value df.
Proof.
  intros H. rewrite state_summary_rows, !map_map. simpl. unfold get_all_states_df.
  assert (F : filter (fun r => inb (Area_Name r) (sorted_set states)) df = df).
  { apply filter_all. intros x Hx. rewrite Forall_forall in H.
    apply inb_In, sorted_set_In, H, Hx. }
  repeat split;
    match goal with |- Qsum (map (fun a => sum_of ?col _) _) == _ =>
      rewrite (sum_by_groups Area_Name col df _ (sorted_set_NoDup states)), F
    end; reflexivity.
Qed.

Lemma state_summary_conserves_witness :
  Qsum (map s_Total_Crimes (state_summary ["Kerala"; "Goa"] two_rows)) == 10 /\
  Qsum (map s_Total_Recovered (state_summary ["Kerala"; "Goa"] two_rows)) == 5.
Proof.
  destruct (state_summary_conserves ["Kerala"; "Goa"] two_rows) as (C & R & _).
  - constructor; [right; left; reflexivity|].
    constructor; [right; left; reflexivity | constructor].
  - split; [rewrite C | rewrite R]; reflexivity.
Defined.

(** When no filtered row belongs to a catalogue region (in particular
    when no row is left), every row of the state summary is zero and the
    three top-line figures are 0. *)
Theorem state_summary_blank (states : list string) (df : list row) :
  Forall (fun r => ~ In (Area_Name r) (get_all_states_df states)) df ->
  state_summary states df = map (fun a => mkState a 0 0 0 0) (get_all_states_df states) /\
  total_crimes (state_summary states df) = 0%Z /\
  total_recovered (state_summary states df) = 0%Z /\
  recovery_rate (state_summary states df) = 0.
Proof.
  intros H.
  assert (E : state_summary states df =
              map (fun a => mkState a 0 0 0 0) (get_all_states_df states)).
  { rewrite state_summary_rows. apply map_ext_in. intros a Ha.
    unfold region_row, rows_of. rewrite (filter_none _ df); [reflexivity|].
    intros x Hx. rewrite Forall_forall in H.
    destruct (String.eqb_spec (Area_Name x) a) as [<-|_]; [|reflexivity].
    exfalso. exact (H x Hx Ha). }
  assert (Z : forall l : list string, Qsum (map (fun _ => 0) l) == 0).
  { intros l. apply Qsum_zero, Forall_map, Forall_forall. reflexivity. }
  assert (T : total_crimes (state_summary states df) = 0%Z).
  { unfold total_crimes. rewrite E, map_map. simpl. apply int_zero, Z. }
  split; [exact E|]. split; [exact T|]. split.
  - unfold total_recovered. rewrite E, map_map. simpl. apply int_zero, Z.
  - unfold recovery_rate. rewrite T. reflexivity.
Qed.

Lemma state_summary_blank_witness :
  state_summary ["Goa"] [mkRow "Pune" None "Overall" "Overall" 7 0 0 0] =
    [mkState "Goa" 0 0 0 0] /\
  total_crimes (state_summary ["Goa"] [mkRow "Pune" None "Overall" "Overall" 7 0 0 0]) = 0%Z.
Proof.
  destruct (state_summary_blank ["Goa"] [mkRow "Pune" None "Overall" "Overall" 7 0 0 0])
    as (E & T & _).
  - constructor; [|constructor]. simpl. intros [H|[]]. discriminate H.
  - split; [exact E | exact T].
Defined.

(** ** Year slider and crime-group selector *)

Lemma insert_year_perm (x : Z) (l : list Z) : Permutation (insert_year x l) (x :: l).
Proof.
  induction l as [|y l IH]; simpl; [reflexivity|].
  destruct (Z.leb x y); [reflexivity|]. rewrite IH. apply perm_swap.
Qed.

Lemma sorted_years_perm (l : list Z) : Permutation (sorted_years l) l.
Proof.
  induction l as [|x l IH]; simpl; [reflexivity|].
  rewrite insert_year_perm, IH. reflexivity.
Qed.

Lemma insert_year_sorted (x : Z) (l : list Z) :
  StronglySorted Z.le l -> StronglySorted Z.le (insert_year x l).
Proof.
  induction 1 as [|y l S IH F]; simpl; [repeat constructor|].
  destruct (Z.leb_spec x y) as [L|L].
  - constructor; [constructor; assumption|]. constructor; [exact L|].
    eapply Forall_impl; [|exact F]. intros z Hz. lia.
  - constructor; [exact IH|]. eapply Permutation_Forall.
    + symmetry. apply insert_year_perm.
    + constructor; [lia | exact F].
Qed.

Lemma sorted_years_sorted (l : list Z) : StronglySorted Z.le (sorted_years l).
Proof.
  induction l as [|x l IH]; simpl; [constructor | apply insert_year_sorted, IH].
Qed.

Lemma years_NoDup (df : list row) : NoDup (years df).
Proof.
  unfold years. eapply Permutation_NoDup.
  - symmetry. apply sorted_years_perm.
  - apply NoDup_nodup.
Qed.

Lemma years_In (df : list row) (y : Z) : In y (years df) <-> In y (year_values df).
Proof.
  unfold years. rewrite <- (nodup_In Z.eq_dec (year_values df) y). split.
  - apply Permutation_in, sorted_years_perm.
  - apply Permutation_in. symmetry. apply sorted_years_perm.
Qed.

Lemma year_values_In (df : list row) (y : Z) :
  In y (year_values df) <-> exists r, In r df /\ Year r = Some y.
Proof.
  unfold year_values. rewrite in_flat_map. split.
  - intros (r & Hr & H). exists r. split; [exact Hr|].
    destruct (Year r) as [z|]; simpl in H; [|contradiction].
    destruct H as [->|[]]. reflexivity.
  - intros (r & Hr & H). exists r. split; [exact Hr|]. rewrite H. left. reflexivity.
Qed.

Lemma has_years_values (df : list row) : has_years df = false <-> year_values df = [].
Proof.
  unfold has_years, year_values. induction df as [|r df IH]; simpl; [tauto|].
  destruct (Year r); simpl; [split; discriminate | exact IH].
Qed.

Lemma fold_min_le (y0 : Z) (ys : list Z) (y : Z) :
  In y (y0 :: ys) -> (fold_right Z.min y0 ys <= y)%Z.
Proof.
  induction ys as [|z ys IH]; simpl.
  - intros [->|[]]. lia.
  - intros [H|[H|H]]; [specialize (IH (or_introl H)) | | specialize (IH (or_intror H))]; lia.
Qed.

Lemma fold_max_ge (y0 : Z) (ys : list Z) (y : Z) :
  In y (y0 :: ys) -> (y <= fold_right Z.max y0 ys)%Z.
Proof.
  induction ys as [|z ys IH]; simpl.
  - intros [->|[]]. lia.
  - intros [H|[H|H]]; [specialize (IH (or_introl H)) | | specialize (IH (or_intror H))]; lia.
Qed.

(** There is a year slider exactly when some row has a year; left at its
    default, the full range, it still removes every row without a year,
    and only those. *)
Theorem default_year_range_drops_undated (df : list row) (lo hi : Z) :
  year_bounds df = Some (lo, hi) ->
  has_years df = true /\
  (lo <= hi)%Z /\
  year_filter (lo, hi) df =
    filter (fun r => match Year r with Some _ => true | None => false end) df.
Proof.
  unfold year_bounds. destruct (years df) as [|y0 ys] eqn:Y; [discriminate|].
  intros [= <- <-].
  assert (V : forall y, In y (year_values df) -> In y (y0 :: ys)).
  { intros y Hy. rewrite <- Y. apply years_In, Hy. }
  assert (H : has_years df = true).
  { destruct (has_years df) eqn:E; [reflexivity|].
    apply has_years_values in E.
    assert (I : In y0 (years df)) by (rewrite Y; left; reflexivity).
    apply years_In in I. rewrite E in I. contradiction. }
  split; [exact H|]. split.
  - pose proof (fold_min_le y0 ys y0 (or_introl eq_refl)).
    pose proof (fold_max_ge y0 ys y0 (or_introl eq_refl)). lia.
  - unfold year_filter. rewrite H. simpl. apply filter_ext_in.
    intros r Hr. unfold Year_between. destruct (Year r) as [y|] eqn:E; [|reflexivity].
    assert (I : In y (y0 :: ys)).
    { apply V, year_values_In. exists r. auto. }
    pose proof (fold_min_le y0 ys y I). pose proof (fold_max_ge y0 ys y I).
    apply andb_true_iff. split; apply Z.leb_le; assumption.
Qed.

Lemma default_year_range_drops_undated_witness :
  year_bounds some_years = Some (2010, 2012)%Z /\
  List.length (year_filter (2010, 2012)%Z some_years) = 3%nat.
Proof.
  split; [reflexivity|].
  destruct (default_year_range_drops_undated some_years 2010 2012 eq_refl) as (_ & _ & E).
  rewrite E. reflexivity.
Defined.

(** Without any year in the data there is no slider and the year filter
    keeps every row. *)
Theorem no_year_no_filter (df : list row) (year_range : Z * Z) :
  year_bounds df = None ->
  Forall (fun r => Year r = None) df /\ year_filter year_range df = df.
Proof.
  unfold year_bounds. destruct (years df) as [|y0 ys] eqn:Y; [|discriminate].
  intros _.
  assert (V : year_values df = []).
  { destruct (year_values df) as [|y l] eqn:E; [reflexivity|].
    assert (I : In y (years df)) by (apply years_In; rewrite E; left; reflexivity).
    rewrite Y in I. contradiction. }
  split.
  - apply Forall_forall. intros r Hr. destruct (Year r) as [y|] eqn:E; [|reflexivity].
    assert (I : In y (year_values df)) by (apply year_values_In; exists r; auto).
    rewrite V in I. contradiction.
  - unfold year_filter. apply has_years_values in V. rewrite V. reflexivity.
Qed.

Lemma no_year_no_filter_witness :
  year_filter (2000, 2001)%Z two_rows = two_rows.
Proof.
  exact (proj2 (no_year_no_filter two_rows (2000, 2001)%Z eq_refl)).
Defined.

(** The crime-group selector splits the data: unless a group is itself
    called All, the totals of the groups on offer add up to the total
    shown for All. *)
Theorem group_totals_add_up (df : list row) :
  ~ In "All" (map Group_Name df) ->
  Qsum (map (fun g => sum_of Total_Crimes (group_filter g df)) (group_options df)) ==
  sum_of Total_Crimes (group_filter "All" df).
Proof.
  intros H. unfold group_options.
  rewrite (map_ext_in _ (fun g => sum_of Total_Crimes (rows_of Group_Name g df))).
  - rewrite (sum_by_groups Group_Name Total_Crimes df _ (sorted_set_NoDup _)).
    rewrite filter_all; [reflexivity|].
    intros x Hx. apply inb_In, sorted_set_In, in_map, Hx.
  - intros g Hg. apply (proj1 (sorted_set_In _ _)) in Hg. unfold group_filter.
    destruct (String.eqb_spec g "All") as [->|_]; [contradiction | reflexivity].
Qed.

Lemma group_totals_add_up_witness :
  Qsum (map (fun g => sum_of Total_Crimes (group_filter g some_years))
            (group_options some_years)) == 15.
Proof.
  rewrite (group_totals_add_up some_years).
  - reflexivity.
  - simpl. intros [H|[H|[H|[H|[]]]]]; discriminate H.
Defined.

(** Every group on offer other than All selects at least one row, and
    only rows of that group. *)
Theorem group_option_selects_its_rows (df : list row) (g : string) :
  In g (group_options df) -> g <> "All" ->
  group_filter g df <> [] /\
  (forall r, In r (group_filter g df) <-> In r df /\ Group_Name r = g).
Proof.
  intros Hg N. unfold group_filter.
  destruct (String.eqb_spec g "All") as [E|_]; [contradiction|].
  assert (M : forall r, In r (filter (fun r => String.eqb (Group_Name r) g) df) <->
                        In r df /\ Group_Name r = g).
  { intros r. rewrite filter_In, String.eqb_eq. reflexivity. }
  split; [|exact M].
  apply (proj1 (sorted_set_In _ _)) in Hg. apply in_map_iff in Hg.
  destruct Hg as (r & E & Hr). intros F.
  assert (I : In r (filter (fun r => String.eqb (Group_Name r) g) df)) by (apply M; auto).
  rewrite F in I. contradiction.
Qed.

Lemma group_option_selects_its_rows_witness :
  group_filter "Fraud" some_years <> [] /\
  List.length (group_filter "Fraud" some_years) = 2%nat.
Proof.
  split; [|reflexivity].
  apply (group_option_selects_its_rows some_years "Fraud").
  - left. reflexivity.
  - discriminate.
Defined.

(** ** Drill-down: sub-groups and trend *)

Lemma sub_groups_total (df : list row) :
  Qsum (map snd (sub_groups df)) == sum_of Total_Crimes df.
Proof.
  unfold sub_groups, groupby. rewrite !map_map. simpl.
  rewrite (sum_by_groups Sub_Group_Name Total_Crimes df _ (sorted_set_NoDup _)).
  rewrite filter_all; [reflexivity|].
  intros x Hx. apply inb_In, sorted_set_In, in_map, Hx.
Qed.

(** The sub-group figures of a drilled-down state add up to the figure the
    map shows for that state. *)
Theorem drill_matches_map (states : list string) (df : list row) (selected_state : string) :
  selected_state <> "All India" ->
  In selected_state (get_all_states_df states) ->
  exists s,
    filter (fun x => String.eqb (s_Area_Name x) selected_state) (state_summary states df) = [s] /\
    Qsum (map snd (sub_groups (drill selected_state df))) == s_Total_Crimes s.
Proof.
  intros N Hs. exists (region_row df selected_state). split.
  - rewrite state_summary_rows.
    rewrite (filter_region_rows df _ selected_state (sorted_set_NoDup _)).
    apply inb_In in Hs. unfold get_all_states_df in Hs. rewrite Hs. reflexivity.
  - rewrite sub_groups_total. unfold drill.
    destruct (String.eqb_spec selected_state "All India") as [E|_]; [contradiction|].
    reflexivity.
Qed.

Lemma drill_matches_map_witness :
  Qsum (map snd (sub_groups (drill "Goa" some_years))) == 14.
Proof.
  destruct (drill_matches_map ["Goa"; "Kerala"] some_years "Goa") as (s & F & E).
  - discriminate.
  - left. reflexivity.
  - rewrite E. injection F as <-. reflexivity.
Defined.

(** With at most 15 sub-groups the breakdown shows them all, and its bars
    add up to the total of the rows drilled into. *)
Theorem breakdown_complete_up_to_15
    (sort_values : list (string * Q) -> list (string * Q))
    (selected_state : string) (df : list row) :
  sort_contract sort_values ->
  (List.length (sub_groups (drill selected_state df)) <= 15)%nat ->
  Permutation (sub_grp sort_values selected_state df) (sub_groups (drill selected_state df)) /\
  Qsum (map snd (sub_grp sort_values selected_state df)) ==
    sum_of Total_Crimes (drill selected_state df).
Proof.
  intros C L. destruct (C (sub_groups (drill selected_state df))) as [P _].
  assert (E : sub_grp sort_values selected_state df =
              sort_values (sub_groups (drill selected_state df))).
  { unfold sub_grp. apply firstn_all2. rewrite (Permutation_length P). exact L. }
  rewrite E. split; [exact P|].
  rewrite (Qsum_perm _ _ (Permutation_map snd P)). apply sub_groups_total.
Qed.

Lemma breakdown_complete_up_to_15_witness :
  Qsum (map snd (sub_grp stable_sort_desc "All India" tied_rows)) == 10.
Proof.
  destruct (breakdown_complete_up_to_15 stable_sort_desc "All India" tied_rows
              stable_sort_desc_contract) as [_ E].
  - simpl. lia.
  - rewrite E. reflexivity.
Defined.

(** Drilling into a state that has no filtered row (the selector offers
    every catalogue state) gives an empty breakdown and the notice in
    place of the trend. *)
Theorem drill_without_rows
    (sort_values : list (string * Q) -> list (string * Q))
    (sort_years : list (Z * Q) -> list (Z * Q))
    (selected_state : string) (df : list row) :
  sort_contract sort_values ->
  selected_state <> "All India" ->
  ~ In selected_state (map Area_Name df) ->
  sub_grp sort_values selected_state df = [] /\
  trend sort_years selected_state df = None.
Proof.
  intros C N A.
  assert (D : drill selected_state df = []).
  { unfold drill. destruct (String.eqb_spec selected_state "All India") as [E|_];
      [contradiction|]. exact (rows_of_absent Area_Name selected_state df A). }
  unfold sub_grp, trend. rewrite D. split; [|reflexivity].
  destruct (C (sub_groups [])) as [P _]. change (sub_groups []) with (@nil (string * Q)) in *.
  apply Permutation_sym, Permutation_nil in P. rewrite P. reflexivity.
Qed.

Lemma drill_without_rows_witness :
  sub_grp stable_sort_desc "Kerala" two_rows = [] /\
  trend sort_by_year "Kerala" two_rows = None.
Proof.
  apply (drill_without_rows stable_sort_desc sort_by_year "Kerala" two_rows
           stable_sort_desc_contract).
  - discriminate.
  - simpl. intros [H|[H|[]]]; discriminate H.
Defined.

Lemma insert_by_year_perm (x : Z * Q) (l : list (Z * Q)) :
  Permutation (insert_by_year x l) (x :: l).
Proof.
  induction l as [|y l IH]; simpl; [reflexivity|].
  destruct (Z.leb (fst x) (fst y)); [reflexivity|]. rewrite IH. apply perm_swap.
Qed.

Lemma sort_by_year_meets_contract : sort_by_year_contract sort_by_year.
Proof.
  intros l. unfold sort_by_year. induction l as [|x l [P S]]; simpl.
  - split; [reflexivity | constructor].
  - split; [rewrite insert_by_year_perm, P; reflexivity|].
    clear P. induction S as [|y l' S IH F]; simpl; [repeat constructor|].
    destruct (Z.leb_spec (fst x) (fst y)) as [L|L].
    + constructor; [constructor; assumption|]. constructor; [exact L|].
      eapply Forall_impl; [|exact F]. simpl. intros z Hz. lia.
    + constructor; [exact IH|]. eapply Permutation_Forall.
      * symmetry. apply insert_by_year_perm.
      * constructor; [lia | exact F].
Qed.

(** A list in strictly ascending order of the year has only one ascending
    rearrangement. *)
Lemma ascending_rearrangement_unique (l l' : list (Z * Q)) :
  StronglySorted (fun a b => (fst a < fst b)%Z) l ->
  Permutation l' l ->
  StronglySorted (fun a b => (fst a <= fst b)%Z) l' ->
  l' = l.
Proof.
  intros S. revert l'. induction S as [|a t S IH F]; intros l' P S'.
  - apply Permutation_sym, Permutation_nil in P. exact P.
  - destruct l' as [|b t']; [apply Permutation_nil in P; discriminate P|].
    inversion S' as [|b' t'' S'' F']; subst.
    assert (E : b = a).
    { assert (Ia : In a (b :: t')).
      { apply (Permutation_in a (Permutation_sym P)). left. reflexivity. }
      destruct Ia as [E|Ia]; [exact E|].
      assert (Ib : In b (a :: t)) by (apply (Permutation_in b P); left; reflexivity).
      destruct Ib as [E|Ib]; [symmetry; exact E|].
      rewrite Forall_forall in F, F'.
      pose proof (F b Ib). pose proof (F' a Ia). lia. }
    subst b. f_equal. apply IH; [|exact S''].
    exact (Permutation_cons_inv P).
Qed.

Lemma strictly_ascending (l : list Z) :
  StronglySorted Z.le l -> NoDup l -> StronglySorted Z.lt l.
Proof.
  induction 1 as [|a l S IH F]; intros N; [constructor|].
  inversion N as [|a' l' Na N']; subst. constructor; [apply IH, N'|].
  rewrite Forall_forall in *. intros x Hx. specialize (F x Hx).
  assert (x <> a) by (intros ->; contradiction). lia.
Qed.

Lemma years_ascending (df : list row) : StronglySorted Z.lt (years df).
Proof.
  apply strictly_ascending; [apply sorted_years_sorted | apply years_NoDup].
Qed.

Lemma year_groups_years (df : list row) : map fst (year_groups df) = years df.
Proof. unfold year_groups. rewrite map_map. simpl. apply map_id. Qed.

Lemma StronglySorted_by_fst (l : list (Z * Q)) :
  StronglySorted Z.lt (map fst l) -> StronglySorted (fun a b => (fst a < fst b)%Z) l.
Proof.
  induction l as [|a l IH]; simpl; intros S; [constructor|].
  inversion S as [|a' l' S' F]; subst. constructor; [apply IH, S'|].
  rewrite Forall_forall in *. intros x Hx. apply F, in_map, Hx.
Qed.

Lemma sum_by_years (col : row -> Q) (df : list row) (keys : list Z) :
  NoDup keys ->
  Qsum (map (fun y => sum_of col (filter (in_year y) df)) keys) ==
  sum_of col (filter (fun r => match Year r with
                               | Some y => existsb (Z.eqb y) keys
                               | None => false
                               end) df).
Proof.
  induction 1 as [|k keys Hk N IH]; simpl.
  - rewrite filter_none; [reflexivity|]. intros r _. destruct (Year r); reflexivity.
  - rewrite IH. clear IH. unfold sum_of, in_year.
    induction df as [|r df IHdf]; simpl; [reflexivity|].
    destruct (Year r) as [y|]; [|exact IHdf].
    destruct (Z.eqb_spec y k) as [E|E]; simpl.
    + assert (X : existsb (Z.eqb y) keys = false).
      { destruct (existsb (Z.eqb y) keys) eqn:I; [|reflexivity].
        apply existsb_exists in I. destruct I as (z & Hz & Ez).
        apply Z.eqb_eq in Ez. subst. contradiction. }
      rewrite X. simpl. rewrite <- IHdf. ring.
    + destruct (existsb (Z.eqb y) keys); simpl; rewrite <- IHdf; [ring | reflexivity].
Qed.

(** The trend is the notice when no row drilled into has a year; otherwise
    it is one point per year in strictly ascending order, whatever sort
    [sort_values] uses, each point the total of that year's rows; rows
    without a year are in no point. *)
Theorem trend_is_yearly_totals
    (sort_values : list (Z * Q) -> list (Z * Q))
    (selected_state : string) (df : list row) :
  sort_by_year_contract sort_values ->
  let d := drill selected_state df in
  (trend sort_values selected_state df = None <-> Forall (fun r => Year r = None) d) /\
  (has_years d = true -> trend sort_values selected_state df = Some (year_groups d)) /\
  StronglySorted Z.lt (map fst (year_groups d)) /\
  (forall y v, In (y, v) (year_groups d) <->
     (exists r, In r d /\ Year r = Some y) /\
     v = sum_of Total_Crimes (filter (in_year y) d)) /\
  Qsum (map snd (year_groups d)) ==
    sum_of Total_Crimes
      (filter (fun r => match Year r with Some _ => true | None => false end) d).
Proof.
  intros C d.
  assert (S : StronglySorted Z.lt (map fst (year_groups d))).
  { rewrite year_groups_years. apply years_ascending. }
  assert (E : sort_values (year_groups d) = year_groups d).
  { destruct (C (year_groups d)) as [P S'].
    apply ascending_rearrangement_unique; [apply StronglySorted_by_fst, S | exact P | exact S']. }
  split; [|split; [|split; [exact S|split]]].
  - unfold trend. fold d. destruct (has_years d) eqn:H; split.
    + discriminate.
    + intros F. exfalso. unfold has_years in H. apply existsb_exists in H.
      destruct H as (r & Hr & Y). rewrite Forall_forall in F. rewrite (F r Hr) in Y.
      discriminate Y.
    + intros _. apply Forall_forall. intros r Hr.
      destruct (Year r) as [y|] eqn:Y; [|reflexivity].
      apply has_years_values in H.
      assert (I : In y (year_values d)) by (apply year_values_In; exists r; auto).
      rewrite H in I. contradiction.
    + reflexivity.
  - intros H. unfold trend. fold d. rewrite H, E. reflexivity.
  - intros y v. unfold year_groups. rewrite in_map_iff. split.
    + intros (y' & [= <- <-] & H). apply years_In, year_values_In in H. auto.
    + intros [H ->]. exists y. split; [reflexivity|]. apply years_In, year_values_In, H.
  - unfold year_groups. rewrite map_map. simpl.
    rewrite (sum_by_years Total_Crimes d _ (years_NoDup d)).
    rewrite (filter_ext_in _ (fun r => match Year r with Some _ => true | None => false end));
      [reflexivity|].
    intros r Hr. destruct (Year r) as [y|] eqn:Y; [|reflexivity].
    apply existsb_exists. exists y. split; [|apply Z.eqb_refl].
    apply years_In, year_values_In. exists r. auto.
Qed.

Lemma trend_is_yearly_totals_witness :
  trend sort_by_year "All India" some_years = Some [(2010%Z, 1 + 0); (2012%Z, 2 + (4 + 0))].
Proof.
  destruct (trend_is_yearly_totals sort_by_year "All India" some_years
              sort_by_year_meets_contract) as (_ & T & _).
  rewrite T; reflexivity.
Defined.

(** ** Comparison charts *)

Lemma insert_state_perm (key : state_row -> Q) (x : state_row) (l : list state_row) :
  Permutation (insert_state key x l) (x :: l).
Proof.
  induction l as [|y l IH]; simpl; [reflexivity|].
  destruct (Qle_bool (key y) (key x)); [reflexivity|]. rewrite IH. apply perm_swap.
Qed.

Lemma sort_states_meets_contract (key : state_row -> Q) :
  sort_states_contract key (sort_states key).
Proof.
  intros l. unfold sort_states. induction l as [|x l [P S]]; simpl.
  - split; [reflexivity | constructor].
  - split; [rewrite insert_state_perm, P; reflexivity|].
    clear P. induction S as [|y l' S IH F]; simpl; [repeat constructor|].
    destruct (Qle_bool (key y) (key x)) eqn:L.
    + apply Qle_bool_iff in L. constructor; [constructor; assumption|].
      constructor; [exact L|].
      eapply Forall_impl; [|exact F]. simpl. intros z Hz.
      apply Qle_trans with (key y); assumption.
    + constructor; [exact IH|]. eapply Permutation_Forall.
      * symmetry. apply insert_state_perm.
      * constructor; [|exact F].
        destruct (Qlt_le_dec (key y) (key x)) as [Lt|Le]; [|exact Le].
        apply Qlt_le_weak in Lt. apply Qle_bool_iff in Lt. congruence.
Qed.

(** The first [n] rows of a sorted rearrangement: as many as there are, up
    to [n]; in order; and ahead of all the rows left out. *)
Lemma head_of_sorted {A : Type} (R : A -> A -> Prop) (sorted_l l : list A) (n : nat) :
  Permutation sorted_l l -> StronglySorted R sorted_l ->
  List.length (firstn n sorted_l) = Nat.min n (List.length l) /\
  StronglySorted R (firstn n sorted_l) /\
  exists rest,
    Permutation (firstn n sorted_l ++ rest) l /\
    Forall (fun x => Forall (R x) rest) (firstn n sorted_l).
Proof.
  intros P S. rewrite <- (firstn_skipn n sorted_l) in S.
  apply StronglySorted_app in S. destruct S as [S1 S2].
  split; [rewrite length_firstn, (Permutation_length P); reflexivity|].
  split; [exact S1|].
  exists (skipn n sorted_l). split; [rewrite firstn_skipn; exact P | exact S2].
Qed.

(** The two comparison charts show the leading rows of the state summary:
    10 states by crimes and 15 by recovery rate, or all the catalogue has
    when it has fewer, in descending order, no state left out ranking
    above a state shown.  States without any data take part with zeros. *)
Theorem comparison_charts
    (by_crimes by_rate : list state_row -> list state_row)
    (states : list string) (df : list row) :
  sort_states_contract s_Total_Crimes by_crimes ->
  sort_states_contract s_Recovery_Rate by_rate ->
  let summary := state_summary states df in
  (List.length (top_states by_crimes summary) =
     Nat.min 10 (List.length (get_all_states_df states)) /\
   StronglySorted (fun a b => s_Total_Crimes b <= s_Total_Crimes a)
     (top_states by_crimes summary) /\
   exists rest,
     Permutation (top_states by_crimes summary ++ rest) summary /\
     Forall (fun x => Forall (fun y => s_Total_Crimes y <= s_Total_Crimes x) rest)
       (top_states by_crimes summary)) /\
  (List.length (top_recovery by_rate summary) =
     Nat.min 15 (List.length (get_all_states_df states)) /\
   StronglySorted (fun a b => s_Recovery_Rate b <= s_Recovery_Rate a)
     (top_recovery by_rate summary) /\
   exists rest,
     Permutation (top_recovery by_rate summary ++ rest) summary /\
     Forall (fun x => Forall (fun y => s_Recovery_Rate y <= s_Recovery_Rate x) rest)
       (top_recovery by_rate summary)).
Proof.
  intros C R summary.
  assert (L : List.length summary = List.length (get_all_states_df states)).
  { unfold summary. rewrite state_summary_rows. apply length_map. }
  rewrite <- L. split.
  - destruct (C summary) as [P S]. exact (head_of_sorted _ _ _ 10 P S).
  - destruct (R summary) as [P S]. exact (head_of_sorted _ _ _ 15 P S).
Qed.

Lemma comparison_charts_witness :
  List.length (top_states (sort_states s_Total_Crimes)
                 (state_summary ["Kerala"; "Goa"] some_years)) = 2%nat /\
  map s_Area_Name (top_states (sort_states s_Total_Crimes)
                     (state_summary ["Kerala"; "Goa"] some_years)) = ["Goa"; "Kerala"].
Proof.
  destruct (comparison_charts (sort_states s_Total_Crimes) (sort_states s_Recovery_Rate)
              ["Kerala"; "Goa"] some_years
              (sort_states_meets_contract _) (sort_states_meets_contract _))
    as [(L & _) _].
  split; [exact L | reflexivity].
Defined.

(** ** More about the normaliser *)

Lemma get_rename_new (df : DataFrame) (old new : string) :
  Frame.get df new = None ->
  Frame.get (Frame.rename df old new) new = Frame.get df old.
Proof.
  unfold Frame.rename. induction df as [|[d x] df IH]; simpl; [reflexivity|].
  destruct (String.eqb_spec new d) as [->|Nd]; [discriminate|]. intros G.
  destruct (String.eqb_spec d old) as [->|Do].
  - rewrite String.eqb_refl. rewrite String.eqb_refl. reflexivity.
  - destruct (String.eqb_spec new d) as [E|_]; [contradiction|].
    destruct (String.eqb_spec old d) as [E|_]; [congruence|]. exact (IH G).
Qed.

Lemma get_rename_old (df : DataFrame) (old new : string) :
  old <> new -> Frame.get (Frame.rename df old new) old = None.
Proof.
  intros N. unfold Frame.rename. induction df as [|[d x] df IH]; simpl; [reflexivity|].
  destruct (String.eqb_spec d old) as [->|Do].
  - destruct (String.eqb_spec old new) as [E|_]; [contradiction | exact IH].
  - destruct (String.eqb_spec old d) as [E|_]; [congruence | exact IH].
Qed.

Lemma first_alias_has (df : DataFrame) (alts : list string) (alt : string) :
  first_alias df alts = Some alt -> Frame.has df alt = true.
Proof.
  induction alts as [|a alts IH]; simpl; [discriminate|].
  destruct (Frame.has df a) eqn:H; [intros [= <-]; exact H | exact IH].
Qed.

Lemma first_alias_same (df df' : DataFrame) (alts : list string) :
  (forall c, Frame.has df' c = Frame.has df c) ->
  first_alias df' alts = first_alias df alts.
Proof.
  intros H. induction alts as [|a alts IH]; simpl; [reflexivity|].
  rewrite H, IH. reflexivity.
Qed.

Lemma first_alias_none_iff (df : DataFrame) (alts : list string) :
  forallb (fun alt => negb (Frame.has df alt)) alts = true <-> first_alias df alts = None.
Proof.
  induction alts as [|a alts IH]; simpl; [tauto|].
  destruct (Frame.has df a); simpl; [split; discriminate | exact IH].
Qed.

Lemma region_column_missing_none (df : DataFrame) :
  region_column_missing df = true <-> region_column df = None.
Proof.
  unfold region_column_missing, region_column.
  destruct (Frame.has df "Area_Name"); cbn [negb andb]; [split; discriminate|].
  apply first_alias_none_iff.
Qed.

Lemma alias_names (c : string) :
  In c ("Area_Name" :: AREA_ALIASES) ->
  String.eqb c "Year" = false /\
  existsb (String.eqb c) DERIVED = false /\
  existsb (String.eqb c) GROUPS = false.
Proof.
  simpl. intros H.
  repeat (destruct H as [<-|H]; [repeat split; reflexivity|]). contradiction.
Qed.

Lemma slen_strip_series (s : series) : slen (strip_series s) = slen s.
Proof. destruct s; simpl; [apply length_map | reflexivity]. Qed.

Lemma length_map2 {A B C : Type} (f : A -> B -> C) (l1 : list A) (l2 : list B) :
  List.length (map2 f l1 l2) = Nat.min (List.length l1) (List.length l2).
Proof.
  revert l2. induction l1 as [|a l1 IH]; intros [|b l2]; simpl; try reflexivity.
  rewrite IH. reflexivity.
Qed.

Lemma rectangular_set (df : DataFrame) (c : string) (s : series) :
  rectangular df -> slen s = Frame.nrows df ->
  rectangular (Frame.set df c s) /\ Frame.nrows (Frame.set df c s) = Frame.nrows df.
Proof.
  intros R L. pose proof (FrameFacts.nrows_set_rows df c s L) as N.
  split; [|exact N]. unfold rectangular. rewrite N.
  apply (FrameFacts.Forall_set (fun _ x => slen x = Frame.nrows df)); assumption.
Qed.

Lemma rectangular_get (df : DataFrame) (c : string) (s : series) :
  rectangular df -> Frame.get df c = Some s -> slen s = Frame.nrows df.
Proof.
  intros R G. apply FrameFacts.get_In in G. unfold rectangular in R.
  rewrite Forall_forall in R. exact (R _ G).
Qed.

Lemma rectangular_map (f : string * series -> string * series) (df : DataFrame) :
  (forall cs, slen (snd (f cs)) = slen (snd cs)) ->
  rectangular df -> rectangular (map f df) /\ Frame.nrows (map f df) = Frame.nrows df.
Proof.
  intros H R.
  assert (N : Frame.nrows (map f df) = Frame.nrows df).
  { destruct df as [|[d x] df]; simpl; [reflexivity|].
    specialize (H (d, x)). destruct (f (d, x)). exact H. }
  split; [|exact N]. unfold rectangular. rewrite N. apply Forall_map.
  eapply Forall_impl; [|exact R]. intros cs E. simpl. rewrite H. exact E.
Qed.

Lemma map_Some_repeat {A : Type} (a : A) (n : nat) :
  map Some (repeat a n) = repeat (Some a) n.
Proof. induction n as [|n IH]; simpl; [reflexivity|]. rewrite IH. reflexivity. Qed.

Lemma is_integral_whole (o : option Q) : is_integral o = true -> whole_or_missing o.
Proof.
  destruct o as [q|]; [|exact (fun _ => I)]. unfold is_integral, whole_or_missing.
  intros H. apply Pos.eqb_eq in H. exists (Qnum (Qred q)).
  rewrite <- (Qred_correct q) at 1. destruct (Qred q) as [n d]. simpl in *. subst d.
  reflexivity.
Qed.

Lemma strip_series_clean (l : list (option string)) :
  strip_series (SObj l) = SObj l -> Forall clean_cell l.
Proof.
  simpl. intros H. injection H as H.
  induction l as [|o l IH]; simpl in *; [constructor|].
  injection H as Ho Hl. constructor; [|exact (IH Hl)].
  destruct o as [x|]; [|discriminate Ho]. unfold astype_str in Ho. injection Ho as Hx.
  exists x. auto.
Qed.

Lemma replace_state_current (o : option string) (k : string) :
  replace_state o = Some k -> assoc k STATE_MAP = None.
Proof.
  destruct o as [x|]; [|discriminate]. unfold replace_state.
  destruct (assoc x STATE_MAP) as [v|] eqn:E; intros [= <-].
  - exact (proj2 (STATE_MAP_values x v E)).
  - exact E.
Qed.

Section NormaliserMore.

Variable parse : string -> option (option Q).

Import Frame FrameFacts.

Lemma has_strip_all (df : DataFrame) (c : string) : has (strip_all df) c = has df c.
Proof. rewrite !has_get, get_strip_all. destruct (get df c); reflexivity. Qed.

Lemma year_step_get_year (df out : DataFrame) :
  year_step parse df = Ok out ->
  get out "Year" = option_map (to_numeric_coerce parse) (get df "Year").
Proof.
  unfold year_step. destruct (get df "Year") as [s|] eqn:G.
  - destruct (astype_Int64 (to_numeric_coerce parse s)) as [y|] eqn:A; simpl; [|discriminate].
    intros [= <-]. apply (astype_Int64_fixed parse) in A. destruct A as [-> _].
    rewrite get_set. reflexivity.
  - intros [= <-]. rewrite G. reflexivity.
Qed.

Lemma year_step_has (df out : DataFrame) (c : string) :
  year_step parse df = Ok out -> has out c = has df c.
Proof.
  intros Y. rewrite !has_get. destruct (String.eqb_spec c "Year") as [->|N].
  - rewrite (year_step_get_year _ _ Y). destruct (get df "Year"); reflexivity.
  - apply String.eqb_neq in N. rewrite (year_step_get_other parse _ _ c Y N). reflexivity.
Qed.

(** What holds of every table [load_data] returns. *)
Lemma load_data_tidy (file_path : string) (df out : DataFrame) :
  load_data parse file_path df = Ok out ->
  Forall (fun cs => tidy parse (fst cs) (snd cs)) out /\ year_settled parse out.
Proof.
  intros L. apply load_data_cases in L.
  destruct L as (df4 & df5 & a & P & K & GA & ->).
  destruct (prepare_tidy parse df df4 P) as [T4 Y4]. split.
  - apply canonical_tidy; [|exact GA].
    apply default_groups_tidy, (kind_step_tidy parse file_path df4 df5 K T4).
  - intros s. rewrite get_set. simpl.
    rewrite get_default_groups_other by reflexivity.
    rewrite (kind_step_get_other parse _ _ _ "Year" K) by reflexivity.
    apply Y4.
Qed.

(** Every table [load_data] returns has the three categorical columns and
    the four derived columns, and no cell of a derived column is missing. *)
Theorem schema_guarantee (file_path : string) (df out : DataFrame) :
  load_data parse file_path df = Ok out ->
  has out "Area_Name" = true /\
  has out "Group_Name" = true /\
  has out "Sub_Group_Name" = true /\
  (exists l, number_column out "Total_Crimes" = Some l) /\
  (exists l, number_column out "Total_Recovered" = Some l) /\
  (exists l, number_column out "Loss_Value" = Some l) /\
  (exists l, number_column out "Recovery_Rate" = Some l).
Proof.
  intros L. apply load_data_cases in L.
  destruct L as (df4 & df5 & a & _ & K & _ & ->).
  destruct (has_default_groups df5) as [G1 G2].
  unfold number_column. rewrite !has_get, !get_set in *. simpl.
  split; [reflexivity|]. split; [exact G1|]. split; [exact G2|].
  rewrite !get_default_groups_other by reflexivity.
  apply kind_step_cases in K.
  destruct K as [[_ (cr & re & st & ba & _ & _ & _ & _ & ->)] | [_ (b & s & _ & _ & ->)]].
  - rewrite !get_set. simpl. unfold num_col. rewrite !sequence_map_Some. eauto 8.
  - rewrite !get_set_scalar_num, !get_set. simpl.
    unfold num_col. rewrite !sequence_map_Some, !sequence_repeat. eauto 8.
Qed.

(** In every table [load_data] returns, no text cell is missing and none
    has white space at either end. *)
Theorem text_cells_clean (file_path : string) (df out : DataFrame)
    (c : string) (l : list (option string)) :
  load_data parse file_path df = Ok out ->
  In (c, SObj l) out ->
  Forall clean_cell l.
Proof.
  intros L Hin. destruct (load_data_tidy file_path df out L) as [T _].
  rewrite Forall_forall in T. destruct (T _ Hin) as [S _].
  apply strip_series_clean, S.
Qed.

(** No region name of a returned table is one of the seven old names. *)
Theorem no_old_region_names (file_path : string) (df out : DataFrame)
    (l : list (option string)) (k : string) :
  load_data parse file_path df = Ok out ->
  get out "Area_Name" = Some (SObj l) ->
  In (Some k) l ->
  assoc k STATE_MAP = None.
Proof.
  intros L G Hin. apply load_data_cases in L.
  destruct L as (df4 & df5 & a & _ & _ & _ & ->).
  rewrite get_set in G. simpl in G. injection G as G.
  destruct a as [la|la]; simpl in G; [|discriminate G]. injection G as <-.
  apply in_map_iff in Hin. destruct Hin as (o & E & _).
  exact (replace_state_current o k E).
Qed.

(** The [Year] column of a returned table is the input's, stripped and
    coerced: text that is not a number becomes a missing year, and every
    year present is a whole number. *)
Theorem year_column_coerced (file_path : string) (df out : DataFrame) (s : series) :
  load_data parse file_path df = Ok out ->
  get df "Year" = Some s ->
  exists l,
    to_numeric_coerce parse (strip_series s) = SNum l /\
    get out "Year" = Some (SNum l) /\
    Forall whole_or_missing l.
Proof.
  intros L G. pose proof (load_data_tidy file_path df out L) as [_ Y].
  apply load_data_cases in L.
  destruct L as (df4 & df5 & a & P & K & _ & ->).
  assert (G4 : get df4 "Year" = Some (to_numeric_coerce parse (strip_series s))).
  { unfold prepare in P.
    destruct (year_step parse (strip_all df)) as [df2|] eqn:Y2; simpl in P; [|discriminate].
    injection P as <-.
    rewrite get_convert_numeric. simpl.
    rewrite get_resolve_area_other by reflexivity.
    rewrite (year_step_get_year _ _ Y2), get_strip_all, G. simpl.
    destruct (strip_series s); reflexivity. }
  assert (GO : get (set (default_groups df5) "Area_Name" (replace_series a)) "Year" =
               Some (to_numeric_coerce parse (strip_series s))).
  { rewrite get_set. simpl. rewrite get_default_groups_other by reflexivity.
    rewrite (kind_step_get_other parse _ _ _ "Year" K) by reflexivity. exact G4. }
  specialize (Y _ GO).
  destruct (to_numeric_coerce parse (strip_series s)) as [l|l] eqn:E.
  - destruct (strip_series s); discriminate E.
  - exists l. split; [reflexivity|]. split; [exact GO|].
    simpl in Y. destruct (forallb is_integral l) eqn:F; [|discriminate Y].
    rewrite forallb_forall in F. apply Forall_forall. intros o Ho.
    apply is_integral_whole, F, Ho.
Qed.


(** A property-crime table that lacks one of the recovered-cases,
    stolen-value or recovered-value columns is not given zeros for it:
    [load_data] stops with an [AttributeError]. *)
Theorem property_table_needs_all_columns (file_path : string) (df df4 : DataFrame) :
  prepare parse df = Ok df4 ->
  has df "Cases_Property_Stolen" = true ->
  has df "Cases_Property_Recovered" = false \/
  has df "Value_of_Property_Stolen" = false \/
  has df "Value_of_Property_Recovered" = false ->
  load_data parse file_path df =
    Raise (AttributeError "'int' object has no attribute 'fillna'").
Proof.
  intros P S M.
  assert (H : forall c, existsb (String.eqb c) ("Area_Name" :: AREA_ALIASES) = false ->
                        get df4 c = None <-> has df c = false).
  { intros c Hc. rewrite <- (prepare_has parse df df4 c P Hc). symmetry.
    apply has_false_get. }
  unfold load_data. rewrite P. simpl. unfold kind_step.
  rewrite (prepare_has parse df df4 _ P) by reflexivity. rewrite S.
  unfold property_kind, get_or_zero.
  destruct (get df4 "Cases_Property_Stolen") as [s1|] eqn:G1.
  2:{ apply H in G1; [congruence | reflexivity]. }
  simpl. rewrite get_set. simpl.
  destruct (get df4 "Cases_Property_Recovered") as [s2|] eqn:G2; [|reflexivity].
  simpl. rewrite !get_set. simpl.
  destruct (get df4 "Value_of_Property_Stolen") as [s3|] eqn:G3; [|reflexivity].
  simpl. rewrite !get_set. simpl.
  destruct (get df4 "Value_of_Property_Recovered") as [s4|] eqn:G4; [|reflexivity].
  exfalso. destruct M as [M|[M|M]]; apply H in M; try reflexivity; congruence.
Qed.

End NormaliserMore.

Lemma schema_guarantee_witness :
  exists out,
    load_data Decimal.parse "murder_cleaned.csv" by_state = Ok out /\
    Frame.has out "Sub_Group_Name" = true /\
    number_column out "Total_Crimes" = Some [4; 0].
Proof.
  eexists. split; [reflexivity|].
  split; [|reflexivity].
  match goal with
  | |- Frame.has ?o _ = true =>
      exact (proj1 (proj2 (proj2
               (schema_guarantee Decimal.parse "murder_cleaned.csv" by_state o eq_refl))))
  end.
Defined.

Lemma year_column_coerced_witness :
  exists out,
    load_data Decimal.parse "murder_cleaned.csv" by_state = Ok out /\
    Frame.get out "Year" = Some (SNum [Some (inject_Z 2010); None]).
Proof.
  eexists. split; [reflexivity|].
  destruct (year_column_coerced Decimal.parse "murder_cleaned.csv" by_state _
              (SObj [Some "2010"; Some "n/a"]) eq_refl eq_refl) as (l & E & G & _).
  injection E as <-. exact G.
Defined.


Lemma text_cells_clean_witness :
  exists out,
    load_data Decimal.parse "murder_cleaned.csv" by_state = Ok out /\
    In ("Area_Name", SObj [Some "Odisha"; Some "Goa"]) out /\
    Forall clean_cell [Some "Odisha"; Some "Goa"].
Proof.
  eexists. split; [reflexivity|].
  assert (I : forall A (x : A) l, In x (x :: l)) by (intros; left; reflexivity).
  split; [apply I|].
  exact (text_cells_clean Decimal.parse "murder_cleaned.csv" by_state _ "Area_Name" _
           eq_refl (I _ _ _)).
Defined.

Lemma no_old_region_names_witness :
  exists out,
    load_data Decimal.parse "murder_cleaned.csv" by_state = Ok out /\
    Frame.get out "Area_Name" = Some (SObj [Some "Odisha"; Some "Goa"]) /\
    assoc "Odisha" STATE_MAP = None.
Proof.
  eexists. split; [reflexivity|]. split; [reflexivity|].
  exact (no_old_region_names Decimal.parse "murder_cleaned.csv" by_state _
           [Some "Odisha"; Some "Goa"] "Odisha" eq_refl eq_refl (or_introl eq_refl)).
Defined.

Lemma property_table_needs_all_columns_witness :
  load_data Decimal.parse "property_crime_cleaned.csv" stolen_only =
  Raise (AttributeError "'int' object has no attribute 'fillna'").
Proof.
  apply (property_table_needs_all_columns Decimal.parse "property_crime_cleaned.csv" stolen_only
           stolen_only eq_refl eq_refl).
  left. reflexivity.
Defined.


(** ** Region column, shape and success of the normaliser *)

Lemma zip_rows_In_recovery (a : list string) (y : list (option Z)) (g s : list string)
    (c r l t : list Q) (x : row) :
  In x (zip_rows a y g s c r l t) ->
  exists i,
    nth_error r i = Some (Total_Recovered x) /\
    nth_error l i = Some (Loss_Value x) /\
    nth_error t i = Some (Recovery_Rate x).
Proof.
  revert y g s c r l t.
  induction a as [|a1 a IH]; intros [|y1 y] [|g1 g] [|s1 s] c r l t; simpl;
    try contradiction.
  destruct c as [|c1 c], r as [|r1 r], l as [|l1 l], t as [|t1 t]; simpl;
    try contradiction.
  intros [<-|H].
  - exists 0%nat. simpl. auto.
  - destruct (IH _ _ _ _ _ _ _ H) as (i & H1 & H2 & H3). exists (S i). auto.
Qed.

Section NormaliserShape.

Variable parse : string -> option (option Q).

Import Frame FrameFacts.

Lemma region_column_has (df : DataFrame) (c : string) :
  region_column df = Some c ->
  has df c = true /\ In c ("Area_Name" :: AREA_ALIASES) /\
  (has df "Area_Name" = true -> c = "Area_Name").
Proof.
  unfold region_column. destruct (has df "Area_Name") eqn:A.
  - intros [= <-]. split; [exact A|]. split; [left; reflexivity | reflexivity].
  - intros F. split; [exact (first_alias_has _ _ _ F)|].
    split; [right; exact (first_alias_In _ _ _ F) | discriminate].
Qed.

(** Where the region column is after the clean-up steps. *)
Lemma prepare_region (df df4 : DataFrame) (c : string) (s : series) :
  prepare parse df = Ok df4 ->
  region_column df = Some c ->
  get df c = Some s ->
  get df4 "Area_Name" = Some (strip_series s) /\
  (c <> "Area_Name" -> get df4 c = None).
Proof.
  unfold prepare. intros P RC G.
  destruct (year_step parse (strip_all df)) as [df2|] eqn:Y; simpl in P; [|discriminate].
  injection P as <-.
  destruct (region_column_has df c RC) as (Hc & Ic & Ac).
  destruct (alias_names c Ic) as (Ny & _ & _).
  assert (H2 : forall x, has df2 x = has df x).
  { intros x. rewrite (year_step_has parse _ _ x Y). apply has_strip_all. }
  assert (G2 : get df2 c = Some (strip_series s)).
  { rewrite (year_step_get_other parse _ _ c Y Ny), get_strip_all, G. reflexivity. }
  unfold region_column in RC. unfold resolve_area. rewrite H2.
  destruct (has df "Area_Name") eqn:A.
  - injection RC as <-. rewrite get_convert_numeric, G2. simpl.
    split; [reflexivity | congruence].
  - rewrite (first_alias_same df df2 _ H2), RC.
    assert (NA : get df2 "Area_Name" = None).
    { apply has_false_get. rewrite H2. exact A. }
    assert (Nc : c <> "Area_Name").
    { intros ->. congruence. }
    rewrite !get_convert_numeric, (get_rename_new _ _ _ NA), G2, (get_rename_old _ _ _ Nc).
    simpl. split; reflexivity.
Qed.


(** [load_data] returns a table exactly when the input has a region
    column, the clean-up steps succeed (no fractional year) and the
    dataset-kind branch succeeds on their result. *)
Theorem load_data_succeeds_iff (file_path : string) (df : DataFrame) :
  succeeds (load_data parse file_path df) = true <->
  region_column_missing df = false /\
  exists df4, prepare parse df = Ok df4 /\ succeeds (kind_step parse file_path df4) = true.
Proof.
  split.
  - destruct (load_data parse file_path df) as [out|] eqn:L; [intros _ | discriminate].
    apply load_data_cases in L. destruct L as (df4 & df5 & a & P & K & GA & _). split.
    + destruct (region_column_missing df) eqn:M; [|reflexivity].
      rewrite get_default_groups_other in GA by reflexivity.
      rewrite (kind_step_get_other parse _ _ _ "Area_Name" K) in GA by reflexivity.
      rewrite (prepare_no_region parse df df4 M P) in GA. discriminate GA.
    + exists df4. rewrite K. auto.
  - intros (M & df4 & P & K).
    destruct (region_column df) as [c|] eqn:RC.
    2:{ apply region_column_missing_none in RC. congruence. }
    destruct (region_column_has df c RC) as (Hc & _ & _).
    rewrite has_get in Hc. destruct (get df c) as [s|] eqn:G; [|discriminate Hc].
    destruct (prepare_region df df4 c s P RC G) as [G4 _].
    unfold load_data. rewrite P. simpl.
    destruct (kind_step parse file_path df4) as [df5|] eqn:K5; [|discriminate K]. simpl.
    unfold canonicalize_area. rewrite get_default_groups_other by reflexivity.
    rewrite (kind_step_get_other parse _ _ _ "Area_Name" K5) by reflexivity.
    rewrite G4. reflexivity.
Qed.

End NormaliserShape.


Section NormaliserRows.

Variable parse : string -> option (option Q).

Import Frame FrameFacts.

Lemma slen_to_numeric_coerce (s : series) : slen (to_numeric_coerce parse s) = slen s.
Proof. destruct s; simpl; [apply length_map | reflexivity]. Qed.

Lemma slen_to_numeric_ignore (s : series) : slen (to_numeric_ignore parse s) = slen s.
Proof.
  destruct s as [l|l]; simpl; [|reflexivity].
  destruct (forallb (parses parse) l); simpl; [apply length_map | reflexivity].
Qed.

Lemma slen_num_col_fillna (s : series) :
  slen (num_col (to_numeric_fillna parse s)) = slen s.
Proof. destruct s; simpl; rewrite !length_map; reflexivity. Qed.

Lemma rows_are_set (n : nat) (df : DataFrame) (c : string) (s : series) :
  rows_are n df -> slen s = n -> rows_are n (set df c s).
Proof.
  intros [R N] L. subst n. destruct (rectangular_set df c s R L) as [R' N'].
  split; assumption.
Qed.

Lemma rows_are_get (n : nat) (df : DataFrame) (c : string) (s : series) :
  rows_are n df -> get df c = Some s -> slen s = n.
Proof. intros [R N] G. subst n. exact (rectangular_get df c s R G). Qed.

Lemma rows_are_map_cols (n : nat) (f : string -> series -> series) (df : DataFrame) :
  (forall c s, slen (f c s) = slen s) -> rows_are n df -> rows_are n (map_cols f df).
Proof.
  intros H [R N]. subst n. unfold map_cols.
  destruct (rectangular_map (fun cs => (fst cs, f (fst cs) (snd cs))) df) as [R' N'];
    [intros cs; apply H | exact R | split; assumption].
Qed.

Lemma rows_are_prepare (n : nat) (df df4 : DataFrame) :
  rows_are n df -> prepare parse df = Ok df4 -> rows_are n df4.
Proof.
  unfold prepare. intros R P.
  destruct (year_step parse (strip_all df)) as [df2|] eqn:Y; simpl in P; [|discriminate].
  injection P as <-.
  assert (R1 : rows_are n (strip_all df)).
  { apply rows_are_map_cols; [intros; apply slen_strip_series | exact R]. }
  assert (R2 : rows_are n df2).
  { unfold year_step in Y. destruct (get (strip_all df) "Year") as [s|] eqn:G.
    - destruct (astype_Int64 (to_numeric_coerce parse s)) as [y|] eqn:A;
        simpl in Y; [|discriminate].
      injection Y as <-. apply (astype_Int64_fixed parse) in A. destruct A as [-> _].
      apply rows_are_set; [exact R1|].
      rewrite slen_to_numeric_coerce. exact (rows_are_get _ _ _ _ R1 G).
    - injection Y as <-. exact R1. }
  apply rows_are_map_cols.
  - intros c s. destruct (existsb (String.eqb c) CATEGORICAL);
      [reflexivity | apply slen_to_numeric_ignore].
  - unfold resolve_area. destruct (has df2 "Area_Name"); [exact R2|].
    destruct (first_alias df2 AREA_ALIASES) as [alt|]; [|exact R2].
    destruct R2 as [R2 N2]. subst n. unfold rename.
    destruct (rectangular_map
                (fun cs => (if String.eqb (fst cs) alt then "Area_Name" else fst cs, snd cs))
                df2) as [R' N']; [reflexivity | exact R2 | split; assumption].
Qed.

Lemma rows_are_kind_step (n : nat) (file_path : string) (df out : DataFrame) :
  rows_are n df -> kind_step parse file_path df = Ok out -> rows_are n out.
Proof.
  intros R K. apply kind_step_cases in K.
  assert (Z : forall d c, rows_are n d -> rows_are n (set_scalar_num d c 0)).
  { intros d c Rd. apply rows_are_set; [exact Rd|]. simpl.
    rewrite repeat_length. exact (proj2 Rd). }
  destruct K as [[_ (cr & re & st & ba & E1 & E2 & E3 & E4 & ->)] | [_ (b & s & _ & G & ->)]].
  - assert (L : forall c l, get_or_zero parse df c = Ok l -> List.length l = n).
    { intros c l E. unfold get_or_zero in E. destruct (get df c) as [s|] eqn:G; [|discriminate].
      injection E as <-. rewrite <- (rows_are_get _ _ _ _ R G).
      rewrite <- (slen_num_col_fillna s). unfold num_col. simpl. rewrite length_map.
      reflexivity. }
    pose proof (L _ _ E1). pose proof (L _ _ E2). pose proof (L _ _ E3). pose proof (L _ _ E4).
    repeat (apply rows_are_set);
      try exact R; unfold num_col; simpl; rewrite length_map, ?length_map2; lia.
  - repeat apply Z. apply rows_are_set; [exact R|].
    rewrite slen_num_col_fillna. exact (rows_are_get _ _ _ _ R G).
Qed.

(** [load_data] keeps the table rectangular and keeps its number of rows:
    no row is dropped or added, and every column it writes has one cell
    per row. *)
Theorem rows_kept (file_path : string) (df out : DataFrame) :
  rectangular df ->
  load_data parse file_path df = Ok out ->
  rectangular out /\ nrows out = nrows df.
Proof.
  intros R L. apply load_data_cases in L.
  destruct L as (df4 & df5 & a & P & K & GA & ->).
  assert (R0 : rows_are (nrows df) df) by (split; [exact R | reflexivity]).
  pose proof (rows_are_prepare _ _ _ R0 P) as R4.
  pose proof (rows_are_kind_step _ _ _ _ R4 K) as R5.
  assert (R6 : rows_are (nrows df) (default_groups df5)).
  { assert (O : forall d c, rows_are (nrows df) d ->
                            rows_are (nrows df) (set_scalar_str d c "Overall")).
    { intros d c Rd. apply rows_are_set; [exact Rd|]. simpl.
      rewrite repeat_length. exact (proj2 Rd). }
    unfold default_groups.
    destruct (has df5 "Group_Name");
      match goal with |- context [if has ?d "Sub_Group_Name" then _ else _] =>
        destruct (has d "Sub_Group_Name") end;
      repeat apply O; exact R5. }
  apply rows_are_set; [exact R6|].
  rewrite slen_replace_series. exact (rows_are_get _ _ _ _ R6 GA).
Qed.

(** In a dataset without the stolen-cases column every normalised row has
    no recovery: [Total_Recovered], [Loss_Value] and [Recovery_Rate] are 0. *)
Theorem generic_rows_have_no_recovery (file_path : string) (raw : DataFrame)
    (df : list row) :
  has raw "Cases_Property_Stolen" = false ->
  normalized parse file_path raw = Some df ->
  Forall (fun x => Total_Recovered x = 0 /\ Loss_Value x = 0 /\ Recovery_Rate x = 0) df.
Proof.
  unfold normalized. intros H N.
  destruct (load_data parse file_path raw) as [out|] eqn:L; [|discriminate].
  apply load_data_cases in L. destruct L as (df4 & df5 & a & P & K & _ & ->).
  apply kind_step_cases in K.
  rewrite (prepare_has parse raw df4 _ P) in K by reflexivity.
  destruct K as [[K _] | [_ (b & s & _ & _ & ->)]]; [congruence|].
  unfold records, number_column in N.
  rewrite !get_set in N. simpl in N.
  rewrite !get_default_groups_other in N by reflexivity.
  rewrite !get_set_scalar_num, !get_set in N. simpl in N.
  unfold num_col in N. rewrite sequence_map_Some, !sequence_repeat in N.
  repeat match type of N with
         | match ?t with Some _ => _ | None => _ end = _ =>
             destruct t; [|discriminate N]
         end.
  injection N as <-. apply Forall_forall. intros x Hx.
  apply zip_rows_In_recovery in Hx. destruct Hx as (i & H1 & H2 & H3).
  apply nth_error_repeat_Some in H1, H2, H3. auto.
Qed.

End NormaliserRows.

Lemma rows_kept_witness :
  exists out,
    load_data Decimal.parse "murder_cleaned.csv" by_state = Ok out /\
    rectangular out /\ Frame.nrows out = 2%nat.
Proof.
  eexists. split; [reflexivity|].
  apply (rows_kept Decimal.parse "murder_cleaned.csv" by_state).
  - repeat constructor.
  - reflexivity.
Defined.

Lemma generic_rows_have_no_recovery_witness :
  exists df,
    normalized Decimal.parse "frauds_cleaned.csv" by_district = Some df /\
    Forall (fun x => Total_Recovered x = 0 /\ Loss_Value x = 0 /\ Recovery_Rate x = 0) df.
Proof.
  eexists. split; [reflexivity|].
  exact (generic_rows_have_no_recovery Decimal.parse "frauds_cleaned.csv" by_district _
           eq_refl eq_refl).
Defined.

(** Where no filtered row has anything recovered (any generic dataset),
    the figure Total Recovered is 0 and the recovery rate is nil, whatever
    the catalogue. *)
Theorem nothing_recovered_shows_zero (states : list string) (df : list row) :
  Forall (fun x => Total_Recovered x = 0) df ->
  total_recovered (state_summary states df) = 0%Z /\
  recovery_rate (state_summary states df) == 0.
Proof.
  intros H.
  assert (T : total_recovered (state_summary states df) = 0%Z).
  { unfold total_recovered. apply int_zero. rewrite state_summary_rows, map_map. simpl.
    apply Qsum_zero, Forall_map, Forall_forall. intros a _.
    apply Qsum_zero, Forall_map, Forall_forall. intros x Hx.
    unfold rows_of in Hx. apply filter_In in Hx. rewrite Forall_forall in H.
    rewrite (H x (proj1 Hx)). reflexivity. }
  split; [exact T|]. unfold recovery_rate. rewrite T.
  destruct (Z.eqb (total_crimes (state_summary states df)) 0); [reflexivity|].
  unfold Qdiv. rewrite !Qmult_0_l. reflexivity.
Qed.

Lemma nothing_recovered_shows_zero_witness :
  total_recovered (state_summary ["Goa"] tied_rows) = 0%Z /\
  recovery_rate (state_summary ["Goa"] tied_rows) == 0.
Proof.
  apply (nothing_recovered_shows_zero ["Goa"] tied_rows).
  repeat constructor.
Defined.

(** ** Top-line figures *)

Lemma int_whole (q : Q) (z : Z) : q == inject_Z z -> int q = z.
Proof.
  unfold Qeq, int. simpl. rewrite Z.mul_1_r. intros ->.
  apply Z.quot_mul. discriminate.
Qed.

(** On counts, the top-line figures are exact: Total Crimes and Total
    Recovered are the totals of the filtered rows of catalogue regions,
    and the rate is their quotient in percent, or 0 when there is no
    crime. *)
Theorem top_line_figures_on_counts (states : list string) (df : list row) (zc zr : Z) :
  sum_of Total_Crimes
    (filter (fun r => inb (Area_Name r) (get_all_states_df states)) df) == inject_Z zc ->
  sum_of Total_Recovered
    (filter (fun r => inb (Area_Name r) (get_all_states_df states)) df) == inject_Z zr ->
  total_crimes (state_summary states df) = zc /\
  total_recovered (state_summary states df) = zr /\
  recovery_rate (state_summary states df) =
    if Z.eqb zc 0 then 0 else inject_Z zr / inject_Z zc * 100.
Proof.
  intros C R.
  assert (TC : total_crimes (state_summary states df) = zc).
  { unfold total_crimes. apply int_whole. rewrite <- C.
    rewrite state_summary_rows, map_map. simpl.
    apply (sum_by_groups Area_Name Total_Crimes df), sorted_set_NoDup. }
  assert (TR : total_recovered (state_summary states df) = zr).
  { unfold total_recovered. apply int_whole. rewrite <- R.
    rewrite state_summary_rows, map_map. simpl.
    apply (sum_by_groups Area_Name Total_Recovered df), sorted_set_NoDup. }
  split; [exact TC|]. split; [exact TR|].
  unfold recovery_rate. rewrite TC, TR. reflexivity.
Qed.

Lemma top_line_figures_on_counts_witness :
  total_crimes (state_summary ["Goa"] two_rows) = 10%Z /\
  total_recovered (state_summary ["Goa"] two_rows) = 5%Z /\
  recovery_rate (state_summary ["Goa"] two_rows) = inject_Z 5 / inject_Z 10 * 100.
Proof.
  apply (top_line_figures_on_counts ["Goa"] two_rows 10 5); reflexivity.
Defined.
